(** * Service principal certificate resource: credential reconciliation

    A shallow embedding of
    [internal/services/serviceprincipals/service_principal_certificate_resource.go]
    (create, read and delete of a certificate credential on a service
    principal) together with the properties of its read-modify-write cycle,
    its named lock and its confirmation polls. *)

From Stdlib Require Import ZArith Ascii String List Bool Lia.
From stdpp Require Import base strings list gmap.
Import ListNotations.

Local Open Scope string_scope.
Local Open Scope Z_scope.
Local Open Scope list_scope.

(** ** Values of the Go side *)

(** [nullable.Type[string]]: either unset ([nil]) or a value;
    [GetOrZero] reads it with the zero value as the fallback. *)
Definition GetOrZero (v : option string) : string :=
  match v with
  | Some s => s
  | None => ""
  end.

(** [stable.KeyCredential], the fields this resource touches. *)
Record KeyCredential := mkKeyCredential {
  KeyId : option string;
  Type_ : option string;
  StartDateTime : option string;
  EndDateTime : option string;
  Key : option string
}.

(** [stable.ServicePrincipal]: [KeyCredentials] is a pointer to a slice and
    may be nil. *)
Record ServicePrincipal := mkServicePrincipal {
  KeyCredentials : option (list KeyCredential)
}.

(** Go [error] values that reach this resource. *)
Inductive error :=
| errors_New (msg : string)
| ClientError (msg : string)
| CredentialError (attr msg : string)
| TimeoutError (lastState : string)
| UnexpectedStateError (state : string).

(** [parse.CredentialId] *)
Record CredentialId := NewCredentialID {
  ObjectId : string;
  KeyType : string;
  CredKeyId : string
}.

(** Modelled from the spec: the helpers [tf.ErrorDiagF], [tf.ErrorDiagPathF]
    and [tf.ImportAsExistsDiag] live in [internal/helpers/tf], whose code is
    missing here.  Each one yields a single error diagnostic; the summary is
    kept as its format string and arguments. [ImportAsExistsDiag] is the
    caller-visible "already exists" signal. *)
Inductive Diagnostic :=
| ErrorDiag (err : option error) (summary : string) (args : list string)
| ErrorDiagPath (err : option error) (attr summary : string) (args : list string)
| ImportAsExists (resourceName id : string).

(** [pluginsdk.Diagnostics]: [nil] is success. *)
Definition Diagnostics := list Diagnostic.

Definition ErrorDiagF (err : option error) (summary : string) (args : list string)
  : Diagnostics := [ErrorDiag err summary args].

Definition ErrorDiagPathF (err : option error) (attr summary : string)
  (args : list string) : Diagnostics := [ErrorDiagPath err attr summary args].

Definition ImportAsExistsDiag (resourceName id : string) : Diagnostics :=
  [ImportAsExists resourceName id].

Definition HasError (diags : Diagnostics) : bool :=
  match diags with
  | [] => false
  | _ :: _ => true
  end.

(** [pluginsdk.ResourceData]: the stored identifier and the string
    attributes of the resource block. *)
Record ResourceData := mkResourceData {
  Id : string;
  attrs : gmap string string
}.

Definition Get (d : ResourceData) (key : string) : string :=
  match attrs d !! key with
  | Some v => v
  | None => ""
  end.

Definition SetId (id : string) (d : ResourceData) : ResourceData :=
  {| Id := id; attrs := attrs d |}.

Definition Set_ (key value : string) (d : ResourceData) : ResourceData :=
  {| Id := Id d; attrs := <[key := value]> (attrs d) |}.

(** ** The directory client and the clock *)

(** Outcome of [client.GetServicePrincipal]: [err == nil] with a model that
    may be nil, a not-found response, or any other failure. *)
Inductive GetResponse :=
| GetOk (model : option ServicePrincipal)
| GetNotFound (err : error)
| GetFailed (err : error).

(** The remote directory as this resource sees it during one operation: the
    answer to the n-th [GetServicePrincipal] call, the answer to the
    [UpdateServicePrincipal] call, the current time and, for a poll with a
    given timeout, how many probes complete before it expires. *)
Record Env := mkEnv {
  getServicePrincipal : nat -> string -> GetResponse;
  updateServicePrincipal : string -> list KeyCredential -> option error;
  now : Z;
  probesWithin : Z -> nat
}.

(** [context.Context]: the deadline, if one is set (nanoseconds since the
    Unix epoch). *)
Record Context := mkContext {
  Deadline : option Z
}.

(** The zero [time.Time] (January 1, year 1, 00:00 UTC). *)
Definition zeroTime : Z := -62135596800000000000.

Definition minDuration : Z := - 2 ^ 63.
Definition maxDuration : Z := 2 ^ 63 - 1.

(** [time.Until(t)]: [t.Sub(time.Now())], saturated to the range of
    [time.Duration]. *)
Definition time_Until (now t : Z) : Z :=
  let dur := t - now in
  if dur <? minDuration then minDuration
  else if maxDuration <? dur then maxDuration
  else dur.

Definition time_Second : Z := 1000000000.

(** ** Collaborators outside this file *)

(** What the resource takes from other packages: [strings.EqualFold], the
    package constant [servicePrincipalResourceName],
    [credentials.KeyCredentialForResource], [parse.CertificateID], the
    [String] method of [parse.CredentialId], and the settings of
    [consistency.WaitForDeletion]. *)
Class Collaborators := {
  EqualFold : string -> string -> bool;
  servicePrincipalResourceName : string;
  KeyCredentialForResource : ResourceData -> KeyCredential + error;
  CertificateID : string -> CredentialId + error;
  CredentialId_String : CredentialId -> string;
  deletionMinTimeout : Z;
  deletionTargetOccurence : Z
}.

(** ** Events and the operation monad *)

(** What an operation does to the outside world, in order.  [EvObserved] is
    the log of the state labels a confirmation poll has seen. *)
Inductive Event :=
| EvLock (name key : string)
| EvUnlock (name key : string)
| EvGet (id : string)
| EvUpdate (id : string) (creds : list KeyCredential)
| EvObserved (label : string).

Record State := mkState {
  data : ResourceData;
  calls : nat;
  trace : list Event
}.

(** A Go statement sequence either falls through with a value or returns
    diagnostics from the enclosing function. *)
Inductive Flow (A : Type) :=
| Return (diags : Diagnostics)
| Next (a : A).
Arguments Return {A} diags.
Arguments Next {A} a.

Definition Op (A : Type) : Type := State -> Flow A * State.

Definition ret {A} (a : A) : Op A := fun s => (Next a, s).

Definition bind {A B} (m : Op A) (k : A -> Op B) : Op B :=
  fun s =>
    match m s with
    | (Return diags, s') => (Return diags, s')
    | (Next a, s') => k a s'
    end.

Definition return_ {A} (diags : Diagnostics) : Op A :=
  fun s => (Return diags, s).

Definition withEvent (e : Event) (s : State) : State :=
  {| data := data s; calls := calls s; trace := trace s ++ [e] |}.

Definition emit (e : Event) : Op unit :=
  fun s => (Next tt, withEvent e s).

Definition modify (f : ResourceData -> ResourceData) : Op unit :=
  fun s => (Next tt, {| data := f (data s); calls := calls s; trace := trace s |}).

Definition getData : Op ResourceData := fun s => (Next (data s), s).

(** [defer f(); body]: [f] runs when the body is left, on every path. *)
Definition defer {A} (f : Op unit) (body : Op A) : Op A :=
  fun s =>
    match body s with
    | (r, s') => (r, snd (f s'))
    end.

(** [return f(...)] for a function [f] with its own body. *)
Definition return_call {A} (f : State -> Diagnostics * State) : Op A :=
  fun s =>
    match f s with
    | (diags, s') => (Return diags, s')
    end.

(** A function body: every path ends in a [return]. *)
Definition run (body : Op Empty_set) (s : State) : Diagnostics * State :=
  match body s with
  | (Return diags, s') => (diags, s')
  | (Next a, _) => match a with end
  end.

Declare Scope op_scope.
Delimit Scope op_scope with op.
Notation "'let!' x ':=' m 'in' k" := (bind m (fun x => k))
  (at level 10, x name, m at level 100, k at level 200) : op_scope.
Notation "'run!' m 'in' k" := (bind m (fun _ => k))
  (at level 10, m at level 100, k at level 200) : op_scope.
Local Open Scope op_scope.

(** [pluginsdk.StateChangeConf]; [Refresh] yields the probed value (an
    [interface{}], nil or not), the state label and an error. *)
Record StateChangeConf (V : Type) := mkStateChangeConf {
  Pending : list string;
  Target : list string;
  Timeout : Z;
  MinTimeout : Z;
  ContinuousTargetOccurence : Z;
  Refresh : Op (option V * string * option error)
}.
Arguments Pending {V} _.
Arguments Target {V} _.
Arguments Timeout {V} _.
Arguments MinTimeout {V} _.
Arguments ContinuousTargetOccurence {V} _.
Arguments Refresh {V} _.

Section Resource.

Context `{Collaborators}.
Variable env : Env.

(** ** Primitive operations *)

(** [tf.LockByName] and [tf.UnlockByName]: acquire and release of the named
    mutex, recorded in the trace. *)
Definition LockByName (name key : string) : Op unit := emit (EvLock name key).
Definition UnlockByName (name key : string) : Op unit := emit (EvUnlock name key).

(** [client.GetServicePrincipal]: the next answer of the directory. *)
Definition GetServicePrincipal (id : string) : Op GetResponse :=
  fun s =>
    (Next (getServicePrincipal env (calls s) id),
     {| data := data s; calls := S (calls s); trace := trace s ++ [EvGet id] |}).

(** [client.UpdateServicePrincipal] with [properties.KeyCredentials] set. *)
Definition UpdateServicePrincipal (id : string) (newCredentials : list KeyCredential)
  : Op (option error) :=
  fun s =>
    (Next (updateServicePrincipal env id newCredentials),
     {| data := data s; calls := calls s;
        trace := trace s ++ [EvUpdate id newCredentials] |}).

(** ** The confirmation poller *)

Definition inLabels (label : string) (labels : list string) : bool :=
  existsb (String.eqb label) labels.

(** Modelled from the spec: the poll loop behind [WaitForStateContext] lives
    in the plugin SDK.  Each round invokes the probe; an error aborts at
    once; a target label counts one more consecutive hit and ends the poll
    with the last value once the required count is reached; a pending label
    resets the count and retries; any other label is an unexpected state.
    When no round is left before the deadline the poll fails with a timeout
    that carries the last observation. *)
Fixpoint waitForState {V} (conf : StateChangeConf V) (rounds : nat) (hits : Z)
  (last : option V) (lastState : string) : Op (option V * option error) :=
  match rounds with
  | O => ret (last, Some (TimeoutError lastState))
  | S rounds' =>
      let! r := Refresh conf in
      match r with
      | (_, _, Some err) => ret (None, Some err)
      | (v, label, None) =>
          run! emit (EvObserved label) in
          if inLabels label (Target conf) then
            if ContinuousTargetOccurence conf <=? hits + 1 then ret (v, None)
            else waitForState conf rounds' (hits + 1) v label
          else if inLabels label (Pending conf) then
            waitForState conf rounds' 0 v label
          else ret (None, Some (UnexpectedStateError label))
      end
  end.

Definition WaitForStateContext {V} (conf : StateChangeConf V)
  : Op (option V * option error) :=
  waitForState conf (probesWithin env (Timeout conf)) 0 None "".

(** Modelled from the spec: [consistency.WaitForDeletion] lives in
    [internal/helpers/consistency], whose code is missing here.  It polls
    the given existence check with "found" as the pending label and
    "not-found" as the target label, up to the deadline of the context, and
    returns the error of the poll. *)
Definition WaitForDeletion (ctx : Context) (f : Op (option bool * option error))
  : Op (option error) :=
  let deadline := match Deadline ctx with Some t => t | None => zeroTime end in
  let conf :=
    {| Pending := ["found"];
       Target := ["not-found"];
       Timeout := time_Until (now env) deadline;
       MinTimeout := deletionMinTimeout;
       ContinuousTargetOccurence := deletionTargetOccurence;
       Refresh :=
         let! r := f in
         match r with
         | (_, Some err) => ret (None, "Error", Some err)
         | (None, None) => ret (None, "Error", Some (errors_New "exists was nil"))
         | (Some true, None) => ret (Some true, "found", None)
         | (Some false, None) => ret (Some false, "not-found", None)
         end |} in
  let! r := WaitForStateContext conf in
  ret (snd r).

(** Modelled from the spec: [credentials.GetKeyCredential] lives in
    [internal/helpers/credentials], whose code is missing here.  A linear scan for the first credential whose key id
    matches without regard to case; nil when the slice is nil or nothing
    matches. *)
Fixpoint findByKeyId (creds : list KeyCredential) (id : string) : option KeyCredential :=
  match creds with
  | [] => None
  | cred :: rest =>
      if EqualFold (GetOrZero (KeyId cred)) id then Some cred
      else findByKeyId rest id
  end.

Definition GetKeyCredential (keyCredentials : option (list KeyCredential)) (id : string)
  : option KeyCredential :=
  match keyCredentials with
  | None => None
  | Some creds => findByKeyId creds id
  end.

(** ** Create *)

(** The loop of lines 160-165: copy every credential into [newCredentials],
    leaving the function when one carries the new key id. [None] stands for
    that early return. *)
Fixpoint copyUnlessPresent (creds : list KeyCredential) (keyId : string)
  (newCredentials : list KeyCredential) : option (list KeyCredential) :=
  match creds with
  | [] => Some newCredentials
  | cred :: rest =>
      if EqualFold (GetOrZero (KeyId cred)) keyId then None
      else copyUnlessPresent rest keyId (newCredentials ++ [cred])
  end.

(** Lines 158-168: the credential list to write, or [None] when the key id
    is taken. *)
Definition newCredentialsForCreate (servicePrincipal : ServicePrincipal)
  (credential : KeyCredential) : option (list KeyCredential) :=
  let copied :=
    match KeyCredentials servicePrincipal with
    | Some creds => copyUnlessPresent creds (GetOrZero (KeyId credential)) []
    | None => Some []
    end in
  match copied with
  | Some newCredentials => Some (newCredentials ++ [credential])
  | None => None
  end.

(** The loop of lines 191-195 inside the [Refresh] closure. *)
Fixpoint firstWithKeyId (creds : list KeyCredential) (keyId : string)
  : option KeyCredential :=
  match creds with
  | [] => None
  | cred :: rest =>
      if EqualFold (GetOrZero (KeyId cred)) keyId then Some cred
      else firstWithKeyId rest keyId
  end.

(** The [Refresh] closure of lines 185-199.  It captures [servicePrincipal],
    the model fetched before the write; the response of its own
    [GetServicePrincipal] call is dropped except for the error. *)
Definition createRefresh (servicePrincipal : ServicePrincipal)
  (servicePrincipalId : string) (id : CredentialId)
  : Op (option KeyCredential * string * option error) :=
  let! resp := GetServicePrincipal servicePrincipalId in
  match resp with
  | GetNotFound err | GetFailed err => ret (None, "Error", Some err)
  | GetOk _ =>
      let found :=
        match KeyCredentials servicePrincipal with
        | Some creds => firstWithKeyId creds (CredKeyId id)
        | None => None
        end in
      match found with
      | Some cred => ret (Some cred, "Done", None)
      | None => ret (None, "Waiting", None)
      end
  end.

(** The [StateChangeConf] literal of lines 179-200. *)
Definition createStateChangeConf (ctx : Context) (servicePrincipal : ServicePrincipal)
  (servicePrincipalId : string) (id : CredentialId) : StateChangeConf KeyCredential :=
  let timeout := match Deadline ctx with Some t => t | None => zeroTime end in
  {| Pending := ["Waiting"];
     Target := ["Done"];
     Timeout := time_Until (now env) timeout;
     MinTimeout := 1 * time_Second;
     ContinuousTargetOccurence := 5;
     Refresh := createRefresh servicePrincipal servicePrincipalId id |}.

Definition startState (d : ResourceData) : State :=
  {| data := d; calls := O; trace := [] |}.

(** ** Read *)

Definition servicePrincipalCertificateResourceRead (ctx : Context)
  : State -> Diagnostics * State :=
  run (
    let! d := getData in
    match CertificateID (Id d) with
    | inr err =>
        return_ (ErrorDiagPathF (Some err) "id"
                   "Parsing certificate credential with ID %q" [Id d])
    | inl id =>
        let servicePrincipalId := ObjectId id in
        let! resp := GetServicePrincipal servicePrincipalId in
        match resp with
        | GetNotFound _ =>
            run! modify (SetId "") in
            return_ []
        | GetFailed err =>
            return_ (ErrorDiagPathF (Some err) "service_principal_id"
                       "Retrieving service principal with object ID %q" [ObjectId id])
        | GetOk None =>
            return_ (ErrorDiagF None "Retrieving %s" [servicePrincipalId])
        | GetOk (Some servicePrincipal) =>
            match GetKeyCredential (KeyCredentials servicePrincipal) (CredKeyId id) with
            | None =>
                run! modify (SetId "") in
                return_ []
            | Some credential =>
                run! modify (Set_ "service_principal_id" (ObjectId id)) in
                run! modify (Set_ "key_id" (CredKeyId id)) in
                run! modify (Set_ "type" (GetOrZero (Type_ credential))) in
                run! modify (Set_ "start_date" (GetOrZero (StartDateTime credential))) in
                run! modify (Set_ "end_date" (GetOrZero (EndDateTime credential))) in
                return_ []
            end
        end
    end).

(** ** Create, continued *)

(** Lines 177-210: wait for the credential to show up, then store the
    identifier and read the resource back. *)
Definition createConfirm (ctx : Context) (servicePrincipal : ServicePrincipal)
  (id : CredentialId) : Op Empty_set :=
  let servicePrincipalId := ObjectId id in
  let! polled :=
    WaitForStateContext
      (createStateChangeConf ctx servicePrincipal servicePrincipalId id) in
  match polled with
  | (_, Some err) =>
      return_ (ErrorDiagF (Some err)
                 "Waiting for certificate credential for %s"
                 [servicePrincipalId])
  | (None, None) =>
      return_ (ErrorDiagF
                 (Some (errors_New
                    "certificate credential not found in service principal manifest"))
                 "Waiting for certificate credential for %s"
                 [servicePrincipalId])
  | (Some _, None) =>
      run! modify (SetId (CredentialId_String id)) in
      return_call (servicePrincipalCertificateResourceRead ctx)
  end.

(** Lines 145-210, the part of the function that runs with the lock held. *)
Definition createLocked (ctx : Context) (credential : KeyCredential) (id : CredentialId)
  : Op Empty_set :=
  let servicePrincipalId := ObjectId id in
  let! resp := GetServicePrincipal servicePrincipalId in
  match resp with
  | GetNotFound _ =>
      return_ (ErrorDiagPathF None "service_principal_id"
                 "%s was not found" [servicePrincipalId])
  | GetFailed err =>
      return_ (ErrorDiagPathF (Some err) "service_principal_id"
                 "Retrieving %s" [servicePrincipalId])
  | GetOk None =>
      return_ (ErrorDiagF (Some (errors_New "model was nil"))
                 "Retrieving %s" [servicePrincipalId])
  | GetOk (Some servicePrincipal) =>
      match newCredentialsForCreate servicePrincipal credential with
      | None =>
          return_ (ImportAsExistsDiag "azuread_service_principal_certificate"
                     (CredentialId_String id))
      | Some newCredentials =>
          let! err := UpdateServicePrincipal servicePrincipalId newCredentials in
          match err with
          | Some err =>
              return_ (ErrorDiagF (Some err) "Adding certificate for %s"
                         [servicePrincipalId])
          | None => createConfirm ctx servicePrincipal id
          end
      end
  end.

Definition servicePrincipalCertificateResourceCreate (ctx : Context)
  : State -> Diagnostics * State :=
  run (
    let! d := getData in
    let objectId := Get d "service_principal_id" in
    match KeyCredentialForResource d with
    | inr err =>
        let attr := match err with CredentialError attr _ => attr | _ => "" end in
        return_ (ErrorDiagPathF (Some err) attr
                   "Generating certificate credentials for service principal with object ID %q"
                   [objectId])
    | inl credential =>
        match KeyId credential with
        | None =>
            return_ (ErrorDiagF (Some (errors_New "keyId for certificate credential is nil"))
                       "Creating certificate credential" [])
        | Some _ =>
            let id := NewCredentialID objectId "certificate" (GetOrZero (KeyId credential)) in
            run! LockByName servicePrincipalResourceName (ObjectId id) in
            defer (UnlockByName servicePrincipalResourceName (ObjectId id))
              (createLocked ctx credential id)
        end
    end).

(** ** Delete *)

(** The loop of lines 282-286: keep every credential whose key id differs
    from the one to remove. *)
Fixpoint copyOthers (creds : list KeyCredential) (keyId : string)
  (newCredentials : list KeyCredential) : list KeyCredential :=
  match creds with
  | [] => newCredentials
  | cred :: rest =>
      if negb (EqualFold (GetOrZero (KeyId cred)) keyId)
      then copyOthers rest keyId (newCredentials ++ [cred])
      else copyOthers rest keyId newCredentials
  end.

(** Lines 280-287. *)
Definition newCredentialsForDelete (servicePrincipal : ServicePrincipal)
  (keyId : string) : list KeyCredential :=
  match KeyCredentials servicePrincipal with
  | Some creds => copyOthers creds keyId []
  | None => []
  end.

(** The existence check of lines 297-308 handed to [WaitForDeletion].  It
    captures [servicePrincipal], the model fetched before the write; the
    response of its own [GetServicePrincipal] call is dropped except for the
    error. *)
Definition deleteExists (servicePrincipal : ServicePrincipal)
  (servicePrincipalId : string) (id : CredentialId) : Op (option bool * option error) :=
  let! resp := GetServicePrincipal servicePrincipalId in
  match resp with
  | GetNotFound err | GetFailed err => ret (None, Some err)
  | GetOk _ =>
      match GetKeyCredential (KeyCredentials servicePrincipal) (CredKeyId id) with
      | None => ret (Some false, None)
      | Some _ => ret (Some true, None)
      end
  end.

(** Lines 296-312: wait for the credential to be gone. *)
Definition deleteConfirm (ctx : Context) (servicePrincipal : ServicePrincipal)
  (id : CredentialId) : Op Empty_set :=
  let servicePrincipalId := ObjectId id in
  let! err :=
    WaitForDeletion ctx (deleteExists servicePrincipal servicePrincipalId id) in
  match err with
  | Some err =>
      return_ (ErrorDiagF (Some err)
                 "Waiting for deletion of certificate credential %q from %s"
                 [CredKeyId id; servicePrincipalId])
  | None => return_ []
  end.

(** Lines 265-312, the part of the function that runs with the lock held. *)
Definition deleteLocked (ctx : Context) (id : CredentialId) : Op Empty_set :=
  let servicePrincipalId := ObjectId id in
  let! resp := GetServicePrincipal servicePrincipalId in
  match resp with
  | GetNotFound _ =>
      return_ (ErrorDiagPathF (Some (errors_New "Service Principal was not found"))
                 "service_principal_id" "Retrieving %s" [servicePrincipalId])
  | GetFailed err =>
      return_ (ErrorDiagPathF (Some err) "service_principal_id"
                 "Retrieving %s" [servicePrincipalId])
  | GetOk None =>
      return_ (ErrorDiagF None "Retrieving %s" [servicePrincipalId])
  | GetOk (Some servicePrincipal) =>
      let newCredentials := newCredentialsForDelete servicePrincipal (CredKeyId id) in
      let! err := UpdateServicePrincipal servicePrincipalId newCredentials in
      match err with
      | Some err =>
          return_ (ErrorDiagF (Some err)
                     "Removing certificate credential %q from %s"
                     [CredKeyId id; servicePrincipalId])
      | None => deleteConfirm ctx servicePrincipal id
      end
  end.

Definition servicePrincipalCertificateResourceDelete (ctx : Context)
  : State -> Diagnostics * State :=
  run (
    let! d := getData in
    match CertificateID (Id d) with
    | inr err =>
        return_ (ErrorDiagPathF (Some err) "id"
                   "Parsing certificate credential with ID %q" [Id d])
    | inl id =>
        run! LockByName servicePrincipalResourceName (ObjectId id) in
        defer (UnlockByName servicePrincipalResourceName (ObjectId id))
          (deleteLocked ctx id)
    end).

End Resource.

(** ** A concrete set of collaborators

    Used to run the operations on concrete inputs. [asciiEqualFold] is the
    ASCII path of [strings.EqualFold]: two bytes match when they are equal
    or when they are the upper and lower case of one letter. *)

Definition foldEqByte (a b : ascii) : bool :=
  let sr := Z.of_N (N_of_ascii a) in
  let tr := Z.of_N (N_of_ascii b) in
  if tr =? sr then true
  else
    let lo := if tr <? sr then tr else sr in
    let hi := if tr <? sr then sr else tr in
    (65 <=? lo) && (lo <=? 90) && (hi =? lo + 32).

Fixpoint asciiEqualFold (s t : string) : bool :=
  match s, t with
  | EmptyString, EmptyString => true
  | String a s', String b t' => foldEqByte a b && asciiEqualFold s' t'
  | _, _ => false
  end.

(** Splits at the first ["/"], if there is one. *)
Fixpoint cutSlash (s : string) : option (string * string) :=
  match s with
  | EmptyString => None
  | String c rest =>
      if Ascii.eqb c "/"%char then Some (EmptyString, rest)
      else
        match cutSlash rest with
        | Some (before, after) => Some (String c before, after)
        | None => None
        end
  end.

Definition sampleCertificateID (s : string) : CredentialId + error :=
  match cutSlash s with
  | Some (objectId, rest) =>
      match cutSlash rest with
      | Some (keyType, keyId) =>
          if String.eqb keyType "certificate"
          then inl (NewCredentialID objectId keyType keyId)
          else inr (errors_New "invalid identifier")
      | None => inr (errors_New "invalid identifier")
      end
  | None => inr (errors_New "invalid identifier")
  end.

Definition sampleString (id : CredentialId) : string :=
  (ObjectId id ++ "/" ++ KeyType id ++ "/" ++ CredKeyId id)%string.

Definition sampleKeyCredentialForResource (d : ResourceData) : KeyCredential + error :=
  if String.eqb (Get d "value") ""
  then inr (CredentialError "value" "value is required")
  else inl {| KeyId := attrs d !! "key_id";
              Type_ := Some (Get d "type");
              StartDateTime := attrs d !! "start_date";
              EndDateTime := attrs d !! "end_date";
              Key := Some (Get d "value") |}.

Definition sampleCollaborators : Collaborators :=
  {| EqualFold := asciiEqualFold;
     servicePrincipalResourceName := "azuread_service_principal";
     KeyCredentialForResource := sampleKeyCredentialForResource;
     CertificateID := sampleCertificateID;
     CredentialId_String := sampleString;
     deletionMinTimeout := 1 * time_Second;
     deletionTargetOccurence := 5 |}.

(** A sample credential with the given key id. *)
Definition cert (keyId : string) : KeyCredential :=
  {| KeyId := Some keyId;
     Type_ := Some "AsymmetricX509Cert";
     StartDateTime := None;
     EndDateTime := None;
     Key := None |}.

(** A directory that holds [before] until the write and [after] from then
    on, accepts every write, and lets a poll run [rounds] probes. *)
Definition sampleEnv (before after : list KeyCredential) (rounds : nat) : Env :=
  {| getServicePrincipal := fun n _ =>
       match n with
       | O => GetOk (Some {| KeyCredentials := Some before |})
       | S _ => GetOk (Some {| KeyCredentials := Some after |})
       end;
     updateServicePrincipal := fun _ _ => None;
     now := 0;
     probesWithin := fun _ => rounds |}.

(** A directory that holds [before] and rejects every write. *)
Definition rejectingEnv (before : list KeyCredential) : Env :=
  {| getServicePrincipal := fun _ _ => GetOk (Some {| KeyCredentials := Some before |});
     updateServicePrincipal := fun _ _ => Some (ClientError "403 Forbidden");
     now := 0;
     probesWithin := fun _ => 3%nat |}.

(** A directory that does not know the principal. *)
Definition goneEnv : Env :=
  {| getServicePrincipal := fun _ _ => GetNotFound (ClientError "404 Not Found");
     updateServicePrincipal := fun _ _ => None;
     now := 0;
     probesWithin := fun _ => 3%nat |}.

Definition sampleCtx : Context := {| Deadline := Some (300 * time_Second) |}.

(** A probe that reads its labels off a script, one per call. *)
Definition scriptedProbe (script : list string) : Op (option unit * string * option error) :=
  fun s =>
    (Next (Some tt, nth (calls s) script "", None),
     {| data := data s; calls := S (calls s); trace := trace s |}).

Definition scriptedConf (script : list string) : StateChangeConf unit :=
  {| Pending := ["pending"];
     Target := ["target"];
     Timeout := 0;
     MinTimeout := 0;
     ContinuousTargetOccurence := 5;
     Refresh := scriptedProbe script |}.

Definition storedData (id : string) : ResourceData :=
  {| Id := id; attrs := ∅ |}.

Definition configData (objectId keyId value : string) : ResourceData :=
  {| Id := "";
     attrs := <["service_principal_id" := objectId]>
                (<["key_id" := keyId]> (<["value" := value]> ∅)) |}.

(** The credentials behind a model; a nil slice holds none. *)
Definition credentialsOf (servicePrincipal : ServicePrincipal) : list KeyCredential :=
  match KeyCredentials servicePrincipal with
  | Some creds => creds
  | None => []
  end.

(** The labels a poll has logged, in order. *)
Fixpoint observed (events : list Event) : list string :=
  match events with
  | [] => []
  | EvObserved label :: rest => label :: observed rest
  | _ :: rest => observed rest
  end.

Definition isLockEvent (e : Event) : bool :=
  match e with
  | EvLock _ _ | EvUnlock _ _ => true
  | _ => false
  end.

Definition isUpdateEvent (e : Event) : bool :=
  match e with
  | EvUpdate _ _ => true
  | _ => false
  end.

(** No acquire and no release of a lock among the events. *)
Definition lockFree (events : list Event) : bool :=
  forallb (fun e => negb (isLockEvent e)) events.

(** Only probes of a poll among the events: fetches and logged labels. *)
Definition isProbe (e : Event) : bool :=
  match e with
  | EvGet _ | EvObserved _ => true
  | _ => false
  end.

Definition pollOnly (events : list Event) : bool := forallb isProbe events.

(** The target labels of a poll. *)
Definition allIn (labels : list string) (seen : list string) : bool :=
  forallb (fun label => existsb (String.eqb label) labels) seen.

(** [m] only appends to the trace, and every event it appends satisfies
    [q]. *)
Definition appending {A} (q : Event -> bool) (m : Op A) : Prop :=
  forall s, exists added,
    trace (snd (m s)) = trace s ++ added /\ forallb q added = true.

(** The same for a function with its own body. *)
Definition appendingFn (q : Event -> bool) (f : State -> Diagnostics * State) : Prop :=
  forall s, exists added,
    trace (snd (f s)) = trace s ++ added /\ forallb q added = true.

Definition notLock (e : Event) : bool := negb (isLockEvent e).

Definition notUpdate (e : Event) : bool := negb (isUpdateEvent e).

(** A probe of a poll: it always falls through and logs no label. *)
Definition silentProbe {A} (m : Op A) : Prop :=
  forall s, exists a s',
    m s = (Next a, s') /\ exists added,
      trace s' = trace s ++ added /\ observed added = [] /\ forallb isProbe added = true.

(** ** The resource descriptor (lines 27-120) *)

(** [pluginsdk.ValueType]; this resource has string attributes only. *)
Inductive ValueType := TypeString.

(** The validators the schema names. *)
Inductive Validator :=
| NoValidator
| IsUUID
| IsRFC3339Time
| StringIsNotEmpty
| StringInSlice (valid : list string) (ignoreCase : bool).

(** [pluginsdk.Schema], without the descriptions. *)
Record Schema := mkSchema {
  SchemaType : ValueType;
  Required : bool;
  Optional : bool;
  Computed : bool;
  ForceNew : bool;
  Sensitive : bool;
  Default : option string;
  ConflictsWith : list string;
  Validate : Validator
}.

(** [pluginsdk.ResourceTimeout]; a duration in nanoseconds per operation. *)
Record ResourceTimeout := mkResourceTimeout {
  TimeoutCreate : option Z;
  TimeoutRead : option Z;
  TimeoutUpdate : option Z;
  TimeoutDelete : option Z
}.

(** [pluginsdk.Resource]: the operations, where set, the timeouts, the
    check run on an identifier at import, and the attributes. *)
Record Resource := mkResource {
  CreateContext : option (Context -> State -> Diagnostics * State);
  ReadContext : option (Context -> State -> Diagnostics * State);
  UpdateContext : option (Context -> State -> Diagnostics * State);
  DeleteContext : option (Context -> State -> Diagnostics * State);
  Timeouts : ResourceTimeout;
  Importer : string -> option error;
  SchemaMap : gmap string Schema
}.

Definition time_Minute : Z := 60 * time_Second.

Section Descriptor.

Context `{Collaborators}.
Variable env : Env.

(** The package variable [possibleValuesForKeyCredentialType], declared
    elsewhere in the package. *)
Variable possibleValuesForKeyCredentialType : list string.

Definition servicePrincipalCertificateResource : Resource :=
  {| CreateContext := Some (servicePrincipalCertificateResourceCreate env);
     ReadContext := Some (servicePrincipalCertificateResourceRead env);
     UpdateContext := None;
     DeleteContext := Some (servicePrincipalCertificateResourceDelete env);
     Timeouts :=
       {| TimeoutCreate := Some (5 * time_Minute);
          TimeoutRead := Some (5 * time_Minute);
          TimeoutUpdate := None;
          TimeoutDelete := Some (5 * time_Minute) |};
     Importer := fun id =>
       match CertificateID id with
       | inl _ => None
       | inr err => Some err
       end;
     SchemaMap :=
       <["service_principal_id" :=
           {| SchemaType := TypeString; Required := true; Optional := false;
              Computed := false; ForceNew := true; Sensitive := false;
              Default := None; ConflictsWith := []; Validate := IsUUID |}]>
       (<["key_id" :=
           {| SchemaType := TypeString; Required := false; Optional := true;
              Computed := true; ForceNew := true; Sensitive := false;
              Default := None; ConflictsWith := []; Validate := IsUUID |}]>
       (<["encoding" :=
           {| SchemaType := TypeString; Required := false; Optional := true;
              Computed := false; ForceNew := true; Sensitive := false;
              Default := Some "pem"; ConflictsWith := [];
              Validate := StringInSlice ["base64"; "hex"; "pem"] false |}]>
       (<["start_date" :=
           {| SchemaType := TypeString; Required := false; Optional := true;
              Computed := true; ForceNew := true; Sensitive := false;
              Default := None; ConflictsWith := []; Validate := IsRFC3339Time |}]>
       (<["end_date" :=
           {| SchemaType := TypeString; Required := false; Optional := true;
              Computed := true; ForceNew := true; Sensitive := false;
              Default := None; ConflictsWith := ["end_date_relative"];
              Validate := IsRFC3339Time |}]>
       (<["end_date_relative" :=
           {| SchemaType := TypeString; Required := false; Optional := true;
              Computed := false; ForceNew := true; Sensitive := false;
              Default := None; ConflictsWith := ["end_date"];
              Validate := StringIsNotEmpty |}]>
       (<["type" :=
           {| SchemaType := TypeString; Required := false; Optional := true;
              Computed := false; ForceNew := true; Sensitive := false;
              Default := None; ConflictsWith := [];
              Validate := StringInSlice possibleValuesForKeyCredentialType false |}]>
       (<["value" :=
           {| SchemaType := TypeString; Required := true; Optional := false;
              Computed := false; ForceNew := true; Sensitive := true;
              Default := None; ConflictsWith := []; Validate := NoValidator |}]>
        ∅))))))) |}.

End Descriptor.

(** What [validation.StringInSlice] lets through. *)
Definition inSlice `{Collaborators} (valid : list string) (ignoreCase : bool) (v : string)
  : bool :=
  existsb (fun allowed => if ignoreCase then EqualFold v allowed else String.eqb v allowed)
    valid.

(** ** The provider helpers ([internal/provider/helpers.go]) *)

(** What the helpers take from the standard library and the operating
    system: [os.Getenv], [os.ReadFile], [strings.TrimSpace] and
    [base64.StdEncoding.Decode] (the bytes written and the error). *)
Class Host := {
  Getenv : string -> string;
  ReadFile : string -> string + error;
  TrimSpace : string -> string;
  StdEncoding_Decode : string -> string * option error
}.

(** The [pluginsdk.ResourceData] of the provider block: string and bool
    attributes. *)
Record ProviderData := mkProviderData {
  strings : gmap string string;
  flags : gmap string bool
}.

Definition GetString (d : ProviderData) (key : string) : string :=
  match strings d !! key with
  | Some v => v
  | None => ""
  end.


(** An error built by [fmt.Errorf]: format, arguments and the error it
    wraps, if any. *)
Inductive wrappedError :=
| Errorf (format : string) (args : list string) (cause : option error).

Section Helpers.

Context `{Host}.

(** [log.Printf] calls so far, as format and arguments. *)
Definition Log := list (string * list string).

Definition logEntry (f : string) (v : list string) (log : Log) : Log :=
  if String.eqb (Getenv "TF_LOG") "" then log
  else if negb (String.eqb (Getenv "TF_ACC") "") then log
  else log ++ [(f, v)].

(** A [[]byte] is nil ([None]) or holds bytes. *)
Definition decodeCertificate (clientCertificate : string)
  : option string * option wrappedError :=
  let pfx : option string := None in
  if negb (String.eqb clientCertificate "") then
    match StdEncoding_Decode clientCertificate with
    | (_, Some err) =>
        (pfx, Some (Errorf "could not decode client certificate data: %v" [] (Some err)))
    | (out, None) => (Some out, None)
    end
  else (pfx, None).

Definition getOidcToken (d : ProviderData) : string + wrappedError :=
  let idToken := GetString d "oidc_token" in
  let path := GetString d "oidc_token_file_path" in
  if negb (String.eqb path "") then
    match ReadFile path with
    | inr err => inr (Errorf "reading OIDC Token from file %q: %v" [path] (Some err))
    | inl fileTokenRaw =>
        let fileToken := TrimSpace fileTokenRaw in
        if negb (String.eqb idToken "") && negb (String.eqb idToken fileToken)
        then inr (Errorf "mismatch between supplied OIDC token and supplied OIDC token file contents - please either remove one or ensure they match" [] None)
        else inl fileToken
    end
  else inl idToken.

Definition getClientId (d : ProviderData) : string + wrappedError :=
  let clientId := TrimSpace (GetString d "client_id") in
  let path := GetString d "client_id_file_path" in
  if negb (String.eqb path "") then
    match ReadFile path with
    | inr err => inr (Errorf "reading Client ID from file %q: %v" [path] (Some err))
    | inl fileClientIdRaw =>
        let fileClientId := TrimSpace fileClientIdRaw in
        if negb (String.eqb clientId "") && negb (String.eqb clientId fileClientId)
        then inr (Errorf "mismatch between supplied Client ID and supplied Client ID file contents - please either remove one or ensure they match" [] None)
        else inl fileClientId
    end
  else inl clientId.

Definition getClientSecret (d : ProviderData) : string + wrappedError :=
  let clientSecret := TrimSpace (GetString d "client_secret") in
  let path := GetString d "client_secret_file_path" in
  if negb (String.eqb path "") then
    match ReadFile path with
    | inr err => inr (Errorf "reading Client Secret from file %q: %v" [path] (Some err))
    | inl fileSecretRaw =>
        let fileSecret := TrimSpace fileSecretRaw in
        if negb (String.eqb clientSecret "") && negb (String.eqb clientSecret fileSecret)
        then inr (Errorf "mismatch between supplied Client Secret and supplied Client Secret file contents - please either remove one or ensure they match" [] None)
        else inl fileSecret
    end
  else inl clientSecret.


End Helpers.

(** ** The existence check of the synchronization job tests
    ([internal/services/synchronization/synchronization_job_resource_test.go]) *)

(** [parse.SynchronizationJobId] *)
Record SynchronizationJobId := mkSynchronizationJobId {
  ServicePrincipalId : string;
  JobId : string
}.

(** Outcome of [client.GetSynchronizationJob]. *)
Inductive JobResponse :=
| JobOk
| JobNotFound (err : error)
| JobFailed (err : error).

(** What the check takes from other packages:
    [parse.SynchronizationJobID], the client call and the [String] method of
    the job identifier. *)
Class JobCollaborators := {
  SynchronizationJobID : string -> SynchronizationJobId + error;
  GetSynchronizationJob : string -> string -> JobResponse;
  JobID_String : string -> string -> string
}.

(** [SynchronizationJobResource.Exists], lines 67-86; [stateID] is
    [state.ID]. *)
Definition Exists `{JobCollaborators} (stateID : string)
  : option bool * option wrappedError :=
  match SynchronizationJobID stateID with
  | inr err => (None, Some (Errorf "parsing synchronization job ID: %v" [] (Some err)))
  | inl resourceId =>
      match GetSynchronizationJob (ServicePrincipalId resourceId) (JobId resourceId) with
      | JobNotFound _ => (Some false, None)
      | JobFailed _ =>
          (None, Some (Errorf "retrieving %s"
                         [JobID_String (ServicePrincipalId resourceId) (JobId resourceId)]
                         None))
      | JobOk => (Some true, None)
      end
  end.

(** ** Concrete hosts and data for the helpers *)

Definition isSpace (c : ascii) : bool :=
  let n := N_of_ascii c in
  (N.eqb n 32 || (N.leb 9 n && N.leb n 13))%bool.

Fixpoint trimLeft (s : string) : string :=
  match s with
  | String c rest => if isSpace c then trimLeft rest else s
  | EmptyString => EmptyString
  end.

Fixpoint trimRight (s : string) : string :=
  match s with
  | String c rest =>
      match trimRight rest with
      | EmptyString => if isSpace c then EmptyString else String c EmptyString
      | kept => String c kept
      end
  | EmptyString => EmptyString
  end.

(** The ASCII part of [strings.TrimSpace]. *)
Definition asciiTrimSpace (s : string) : string := trimRight (trimLeft s).

(** A host with two files, no usable base64 decoder beyond the empty and a
    fixed input, and the given environment. *)
Definition sampleHost (environment : string -> string) : Host :=
  {| Getenv := environment;
     ReadFile := fun path =>
       if String.eqb path "/run/id" then inl " app-1
"
       else if String.eqb path "/run/secret" then inl "s3cret
"
       else inr (ClientError "no such file");
     TrimSpace := asciiTrimSpace;
     StdEncoding_Decode := fun src =>
       if String.eqb src "aGk=" then ("hi", None)
       else ("h", Some (ClientError "illegal base64 data")) |}.

Definition noEnvironment : string -> string := fun _ => "".


Definition providerData (entries : list (string * string)) (aks : bool) : ProviderData :=
  {| strings := list_to_map entries;
     flags := <["use_aks_workload_identity" := aks]> ∅ |}.

Definition sampleJobs : JobCollaborators :=
  {| SynchronizationJobID := fun s =>
       match cutSlash s with
       | Some (sp, rest) =>
           match cutSlash rest with
           | Some (kind, job) =>
               if String.eqb kind "job" then inl (mkSynchronizationJobId sp job)
               else inr (errors_New "invalid identifier")
           | None => inr (errors_New "invalid identifier")
           end
       | None => inr (errors_New "invalid identifier")
       end;
     GetSynchronizationJob := fun sp job =>
       if String.eqb job "j1" then JobOk
       else if String.eqb job "j2" then JobNotFound (ClientError "404 Not Found")
       else JobFailed (ClientError "500");
     JobID_String := fun sp job => (sp ++ "/" ++ job)%string |}.

(** ** Further predicates on operations *)

(** [m] leaves the resource data as it found them. *)
Definition keepsData {A} (m : Op A) : Prop :=
  forall s, data (snd (m s)) = data s.

(** How many writes there are among the events. *)
Definition countUpdates (events : list Event) : nat :=
  length (List.filter isUpdateEvent events).

(** A probe that never reports a target label of [conf], never leaves the
    function and keeps the resource data. *)
Definition neverOnTarget {V} (conf : StateChangeConf V) : Prop :=
  forall s, exists v label err s',
    Refresh conf s = (Next (v, label, err), s') /\
    data s' = data s /\
    (err = None -> inLabels label (Target conf) = false).

(** * Properties *)

(** ** The credential loops *)

Section CredentialSet.

Context `{Collaborators}.

Definition matches (keyId : string) (cred : KeyCredential) : bool :=
  EqualFold (GetOrZero (KeyId cred)) keyId.

Lemma copyUnlessPresent_spec creds keyId acc :
  copyUnlessPresent creds keyId acc =
  if existsb (matches keyId) creds then None else Some (acc ++ creds).
Proof.
  revert acc. induction creds as [|cred rest IH]; intros acc; simpl.
  - now rewrite app_nil_r.
  - unfold matches at 1. destruct (EqualFold _ keyId); simpl; [reflexivity|].
    rewrite IH. destruct (existsb _ rest); [reflexivity|].
    now rewrite <- app_assoc.
Qed.

Lemma copyOthers_spec creds keyId acc :
  copyOthers creds keyId acc =
  acc ++ List.filter (fun cred => negb (matches keyId cred)) creds.
Proof.
  revert acc. induction creds as [|cred rest IH]; intros acc; simpl.
  - now rewrite app_nil_r.
  - unfold matches at 1. destruct (EqualFold _ keyId); simpl; rewrite IH.
    + reflexivity.
    + now rewrite <- app_assoc.
Qed.

Lemma findByKeyId_none creds keyId :
  findByKeyId creds keyId = None <-> existsb (matches keyId) creds = false.
Proof.
  induction creds as [|cred rest IH]; simpl; [tauto|].
  unfold matches at 1. destruct (EqualFold _ keyId); simpl; [split; discriminate|exact IH].
Qed.

Lemma findByKeyId_firstWithKeyId creds keyId :
  findByKeyId creds keyId = firstWithKeyId creds keyId.
Proof.
  induction creds as [|cred rest IH]; simpl; [reflexivity|now rewrite IH].
Qed.

Lemma existsb_matches_false creds keyId :
  existsb (matches keyId) creds = false <->
  (forall cred, In cred creds -> EqualFold (GetOrZero (KeyId cred)) keyId = false).
Proof.
  split.
  - intros Hex cred Hin. destruct (EqualFold _ keyId) eqn:E; [|reflexivity].
    assert (existsb (matches keyId) creds = true) as Ht
      by (apply existsb_exists; exists cred; split; [exact Hin|exact E]).
    congruence.
  - intros Hall. apply not_true_is_false. intros Hex.
    apply existsb_exists in Hex as (cred & Hin & Hm).
    unfold matches in Hm. rewrite (Hall cred Hin) in Hm. discriminate.
Qed.

Lemma existsb_matches_true creds keyId cred :
  In cred creds -> EqualFold (GetOrZero (KeyId cred)) keyId = true ->
  existsb (matches keyId) creds = true.
Proof.
  intros Hin Hm. apply existsb_exists. exists cred. split; assumption.
Qed.

Lemma newCredentialsForCreate_spec servicePrincipal credential :
  newCredentialsForCreate servicePrincipal credential =
  if existsb (matches (GetOrZero (KeyId credential))) (credentialsOf servicePrincipal)
  then None
  else Some (credentialsOf servicePrincipal ++ [credential]).
Proof.
  unfold newCredentialsForCreate, credentialsOf.
  destruct (KeyCredentials servicePrincipal) as [creds|]; simpl; [|reflexivity].
  rewrite copyUnlessPresent_spec. now destruct (existsb _ creds).
Qed.

Lemma newCredentialsForDelete_spec servicePrincipal keyId :
  newCredentialsForDelete servicePrincipal keyId =
  List.filter (fun cred => negb (matches keyId cred)) (credentialsOf servicePrincipal).
Proof.
  unfold newCredentialsForDelete, credentialsOf.
  destruct (KeyCredentials servicePrincipal) as [creds|]; simpl; [|reflexivity].
  now rewrite copyOthers_spec.
Qed.

Lemma filter_none_match creds keyId :
  existsb (matches keyId) creds = false ->
  List.filter (fun cred => negb (matches keyId cred)) creds = creds.
Proof.
  induction creds as [|cred rest IH]; simpl; [reflexivity|].
  destruct (matches keyId cred); simpl; [discriminate|].
  intros Hex. now rewrite IH.
Qed.

End CredentialSet.

(** ** How operations extend the trace *)

Section Traces.

Context `{Collaborators}.
Variable env : Env.

Lemma appending_ret {A} q (a : A) : appending q (ret a).
Proof. intros s. exists []. simpl. now rewrite app_nil_r. Qed.

Lemma appending_return_ {A} q diags : appending q (@return_ A diags).
Proof. intros s. exists []. simpl. now rewrite app_nil_r. Qed.

Lemma appending_getData q : appending q getData.
Proof. intros s. exists []. simpl. now rewrite app_nil_r. Qed.

Lemma appending_modify q f : appending q (modify f).
Proof. intros s. exists []. simpl. now rewrite app_nil_r. Qed.

Lemma appending_emit q e : q e = true -> appending q (emit e).
Proof. intros Hq s. exists [e]. simpl. now rewrite Hq. Qed.

Lemma appending_bind {A B} q (m : Op A) (k : A -> Op B) :
  appending q m -> (forall a, appending q (k a)) -> appending q (bind m k).
Proof.
  intros Hm Hk s. unfold bind.
  destruct (Hm s) as (added1 & E1 & Q1).
  destruct (m s) as [[diags|a] s1]; simpl in *.
  - exists added1. now split.
  - destruct (Hk a s1) as (added2 & E2 & Q2).
    exists (added1 ++ added2). rewrite E2, E1, <- app_assoc. split; [reflexivity|].
    rewrite forallb_app, Q1, Q2. reflexivity.
Qed.

Lemma appending_return_call {A} q f : appendingFn q f -> appending q (@return_call A f).
Proof.
  intros Hf s. unfold return_call. destruct (Hf s) as (added & E & Q).
  destruct (f s) as [diags s1]. simpl in *. exists added. now split.
Qed.

Lemma appending_run q body : appending q body -> appendingFn q (run body).
Proof.
  intros Hb s. unfold run. destruct (Hb s) as (added & E & Q).
  destruct (body s) as [[diags|a] s1]; [|destruct a]. simpl in *.
  exists added. now split.
Qed.

Lemma appending_GetServicePrincipal q id :
  q (EvGet id) = true -> appending q (GetServicePrincipal env id).
Proof. intros Hq s. exists [EvGet id]. simpl. now rewrite Hq. Qed.

Lemma appending_UpdateServicePrincipal q id creds :
  q (EvUpdate id creds) = true -> appending q (UpdateServicePrincipal env id creds).
Proof. intros Hq s. exists [EvUpdate id creds]. simpl. now rewrite Hq. Qed.

Lemma appending_waitForState {V} q (conf : StateChangeConf V) rounds hits last lastState :
  appending q (Refresh conf) -> (forall label, q (EvObserved label) = true) ->
  appending q (waitForState conf rounds hits last lastState).
Proof.
  intros Hr Hq. revert hits last lastState.
  induction rounds as [|rounds IH]; intros hits last lastState; simpl.
  - apply appending_ret.
  - apply appending_bind; [exact Hr|].
    intros [[v label] [err|]]; [apply appending_ret|].
    apply appending_bind; [apply appending_emit, Hq|]. intros _.
    destruct (inLabels label (Target conf)).
    + destruct (_ <=? _); [apply appending_ret|apply IH].
    + destruct (inLabels label (Pending conf)); [apply IH|apply appending_ret].
Qed.

Lemma appending_createRefresh q servicePrincipal servicePrincipalId id :
  q (EvGet servicePrincipalId) = true ->
  appending q (createRefresh env servicePrincipal servicePrincipalId id).
Proof.
  intros Hq. unfold createRefresh.
  apply appending_bind; [now apply appending_GetServicePrincipal|].
  intros [model|err|err]; try apply appending_ret.
  destruct (match KeyCredentials servicePrincipal with Some _ => _ | None => _ end);
    apply appending_ret.
Qed.

Lemma appending_deleteExists q servicePrincipal servicePrincipalId id :
  q (EvGet servicePrincipalId) = true ->
  appending q (deleteExists env servicePrincipal servicePrincipalId id).
Proof.
  intros Hq. unfold deleteExists.
  apply appending_bind; [now apply appending_GetServicePrincipal|].
  intros [model|err|err]; try apply appending_ret.
  destruct (GetKeyCredential _ _); apply appending_ret.
Qed.

Lemma appending_WaitForDeletion q ctx f :
  appending q f -> (forall label, q (EvObserved label) = true) ->
  appending q (WaitForDeletion env ctx f).
Proof.
  intros Hf Hq. unfold WaitForDeletion.
  apply appending_bind; [|intros r; apply appending_ret].
  unfold WaitForStateContext. apply appending_waitForState; [|exact Hq]. simpl.
  apply appending_bind; [exact Hf|].
  intros [[[|]|] [err|]]; apply appending_ret.
Qed.

Lemma appending_Read q ctx :
  (forall id, q (EvGet id) = true) ->
  appendingFn q (servicePrincipalCertificateResourceRead env ctx).
Proof.
  intros Hq. unfold servicePrincipalCertificateResourceRead.
  apply appending_run. apply appending_bind; [apply appending_getData|]. intros d.
  destruct (CertificateID (Id d)) as [id|err]; [|apply appending_return_].
  apply appending_bind; [apply appending_GetServicePrincipal, Hq|].
  intros [[servicePrincipal|]|err|err]; try apply appending_return_.
  - destruct (GetKeyCredential _ _).
    + repeat (apply appending_bind; [apply appending_modify|intros _]).
      apply appending_return_.
    + apply appending_bind; [apply appending_modify|intros _]. apply appending_return_.
  - apply appending_bind; [apply appending_modify|intros _]. apply appending_return_.
Qed.

End Traces.

(** ** The lock *)

Section Lock.

Context `{Collaborators}.
Variable env : Env.

(** A body run under [LockByName] with a deferred [UnlockByName]: the lock
    event comes first, the unlock event last, none in between. *)
Lemma locked_body {A} name key (body : Op A) s :
  appending notLock body ->
  exists mid,
    trace (snd (bind (LockByName name key)
                  (fun _ => defer (UnlockByName name key) body) s)) =
    trace s ++ EvLock name key :: mid ++ [EvUnlock name key] /\
    lockFree mid = true.
Proof.
  intros Hb. unfold bind, LockByName, UnlockByName, defer, emit. simpl.
  match goal with |- context [body ?s1] => destruct (Hb s1) as (mid & E & Q);
    destruct (body s1) as [r s2] end.
  simpl in *. exists mid. rewrite E. simpl. rewrite <- !app_assoc. simpl.
  split; [reflexivity|exact Q].
Qed.

Lemma appending_createConfirm q ctx servicePrincipal id :
  (forall i, q (EvGet i) = true) -> (forall label, q (EvObserved label) = true) ->
  appending q (createConfirm env ctx servicePrincipal id).
Proof.
  intros Hget Hobs. unfold createConfirm. apply appending_bind.
  - unfold WaitForStateContext. apply appending_waitForState; [|exact Hobs].
    apply appending_createRefresh, Hget.
  - intros [[cred|] [err|]]; try apply appending_return_.
    apply appending_bind; [apply appending_modify|intros _].
    apply appending_return_call. now apply appending_Read.
Qed.

Lemma appending_deleteConfirm q ctx servicePrincipal id :
  (forall i, q (EvGet i) = true) -> (forall label, q (EvObserved label) = true) ->
  appending q (deleteConfirm env ctx servicePrincipal id).
Proof.
  intros Hget Hobs. unfold deleteConfirm. apply appending_bind.
  - apply appending_WaitForDeletion; [|exact Hobs]. apply appending_deleteExists, Hget.
  - intros [err|]; apply appending_return_.
Qed.

Lemma appending_createLocked q ctx credential id :
  (forall i, q (EvGet i) = true) -> (forall i c, q (EvUpdate i c) = true) ->
  (forall label, q (EvObserved label) = true) ->
  appending q (createLocked env ctx credential id).
Proof.
  intros Hget Hupd Hobs. unfold createLocked.
  apply appending_bind; [apply appending_GetServicePrincipal, Hget|].
  intros [[servicePrincipal|]|err|err]; try apply appending_return_.
  destruct (newCredentialsForCreate _ _) as [newCredentials|]; [|apply appending_return_].
  apply appending_bind; [apply appending_UpdateServicePrincipal, Hupd|].
  intros [err|]; [apply appending_return_|].
  now apply appending_createConfirm.
Qed.

Lemma appending_deleteLocked q ctx id :
  (forall i, q (EvGet i) = true) -> (forall i c, q (EvUpdate i c) = true) ->
  (forall label, q (EvObserved label) = true) ->
  appending q (deleteLocked env ctx id).
Proof.
  intros Hget Hupd Hobs. unfold deleteLocked.
  apply appending_bind; [apply appending_GetServicePrincipal, Hget|].
  intros [[servicePrincipal|]|err|err]; try apply appending_return_.
  apply appending_bind; [apply appending_UpdateServicePrincipal, Hupd|].
  intros [err|]; [apply appending_return_|].
  now apply appending_deleteConfirm.
Qed.

(** C5. Create and Delete either leave before taking the named lock, and
    then touch no lock at all, or take it once and release it once, as the
    very last thing they do, whatever happens in between: a failed fetch, a
    taken key id, a failed write, a failed or timed-out poll, or success. *)
Theorem lock_released_once_on_every_path ctx s :
  (exists added,
      trace (snd (servicePrincipalCertificateResourceCreate env ctx s)) = trace s ++ added /\
      (lockFree added = true \/
       exists key mid,
         added = EvLock servicePrincipalResourceName key :: mid ++
                 [EvUnlock servicePrincipalResourceName key] /\
         lockFree mid = true)) /\
  (exists added,
      trace (snd (servicePrincipalCertificateResourceDelete env ctx s)) = trace s ++ added /\
      (lockFree added = true \/
       exists key mid,
         added = EvLock servicePrincipalResourceName key :: mid ++
                 [EvUnlock servicePrincipalResourceName key] /\
         lockFree mid = true)).
Proof.
  split.
  - unfold servicePrincipalCertificateResourceCreate, run.
    unfold bind at 1. unfold getData at 1.
    destruct (KeyCredentialForResource (data s)) as [credential|err].
    + destruct (KeyId credential) as [keyId|].
      * set (id := NewCredentialID _ _ _).
        destruct (locked_body servicePrincipalResourceName (ObjectId id)
                    (createLocked env ctx credential id) s) as (mid & E & Q).
        { now apply appending_createLocked. }
        destruct (bind _ _ s) as [[diags|[]] s']. simpl in *.
        exists (EvLock servicePrincipalResourceName (ObjectId id) :: mid ++
                [EvUnlock servicePrincipalResourceName (ObjectId id)]).
        split; [exact E|]. right. exists (ObjectId id), mid. now split.
      * exists []. simpl. rewrite app_nil_r. now split; [|left].
    + exists []. simpl. rewrite app_nil_r. now split; [|left].
  - unfold servicePrincipalCertificateResourceDelete, run.
    unfold bind at 1. unfold getData at 1.
    destruct (CertificateID (Id (data s))) as [id|err].
    + destruct (locked_body servicePrincipalResourceName (ObjectId id)
                  (deleteLocked env ctx id) s) as (mid & E & Q).
      { now apply appending_deleteLocked. }
      destruct (bind _ _ s) as [[diags|[]] s']. simpl in *.
      exists (EvLock servicePrincipalResourceName (ObjectId id) :: mid ++
              [EvUnlock servicePrincipalResourceName (ObjectId id)]).
      split; [exact E|]. right. exists (ObjectId id), mid. now split.
    + exists []. simpl. rewrite app_nil_r. now split; [|left].
Qed.

End Lock.

(** ** Create, Delete and Read path by path *)

Section Paths.

Context `{Collaborators}.
Variable env : Env.

Lemma Create_locked ctx s credential keyId :
  KeyCredentialForResource (data s) = inl credential ->
  KeyId credential = Some keyId ->
  let id := NewCredentialID (Get (data s) "service_principal_id") "certificate" keyId in
  servicePrincipalCertificateResourceCreate env ctx s =
  match createLocked env ctx credential id
          (withEvent (EvLock servicePrincipalResourceName (ObjectId id)) s) with
  | (Return diags, s') =>
      (diags, withEvent (EvUnlock servicePrincipalResourceName (ObjectId id)) s')
  | (Next a, _) => match a with end
  end.
Proof.
  intros Hcred Hkey id.
  unfold servicePrincipalCertificateResourceCreate, run.
  unfold bind at 1. unfold getData at 1. rewrite Hcred, Hkey. simpl GetOrZero.
  fold id. unfold bind, LockByName, UnlockByName, defer, emit.
  destruct (createLocked env ctx credential id _) as [[diags|[]] s']. reflexivity.
Qed.

Lemma Delete_locked ctx s id :
  CertificateID (Id (data s)) = inl id ->
  servicePrincipalCertificateResourceDelete env ctx s =
  match deleteLocked env ctx id
          (withEvent (EvLock servicePrincipalResourceName (ObjectId id)) s) with
  | (Return diags, s') =>
      (diags, withEvent (EvUnlock servicePrincipalResourceName (ObjectId id)) s')
  | (Next a, _) => match a with end
  end.
Proof.
  intros Hid.
  unfold servicePrincipalCertificateResourceDelete, run.
  unfold bind at 1. unfold getData at 1. rewrite Hid.
  unfold bind, LockByName, UnlockByName, defer, emit.
  destruct (deleteLocked env ctx id _) as [[diags|[]] s']. reflexivity.
Qed.

(** C1, as the code has it. When the directory reports the principal as not
    found at the fetch of Delete, Delete returns an error diagnostic on
    [service_principal_id] saying the service principal was not found; it
    writes nothing, and the lock taken before the fetch is released. *)
Theorem detach_principal_not_found_is_an_error ctx s id err :
  CertificateID (Id (data s)) = inl id ->
  getServicePrincipal env (calls s) (ObjectId id) = GetNotFound err ->
  servicePrincipalCertificateResourceDelete env ctx s =
  (ErrorDiagPathF (Some (errors_New "Service Principal was not found"))
     "service_principal_id" "Retrieving %s" [ObjectId id],
   {| data := data s;
      calls := S (calls s);
      trace := trace s ++ [EvLock servicePrincipalResourceName (ObjectId id);
                           EvGet (ObjectId id);
                           EvUnlock servicePrincipalResourceName (ObjectId id)] |}).
Proof.
  intros Hid Hget. rewrite (Delete_locked ctx s id Hid).
  unfold deleteLocked, bind, GetServicePrincipal, withEvent, return_. simpl.
  rewrite Hget. simpl. rewrite <- !app_assoc. reflexivity.
Qed.

(** C3. When the fetched credential set already holds a credential whose key
    id equals the new one without regard to case, the add yields no new set,
    Create returns the already-exists diagnostic, and the trace shows the
    lock, the fetch and the unlock only: no write is issued. *)
Theorem attach_taken_key_id_already_exists ctx s credential keyId servicePrincipal cred :
  KeyCredentialForResource (data s) = inl credential ->
  KeyId credential = Some keyId ->
  getServicePrincipal env (calls s) (Get (data s) "service_principal_id") =
    GetOk (Some servicePrincipal) ->
  In cred (credentialsOf servicePrincipal) ->
  EqualFold (GetOrZero (KeyId cred)) keyId = true ->
  newCredentialsForCreate servicePrincipal credential = None /\
  servicePrincipalCertificateResourceCreate env ctx s =
  (ImportAsExistsDiag "azuread_service_principal_certificate"
     (CredentialId_String
        (NewCredentialID (Get (data s) "service_principal_id") "certificate" keyId)),
   {| data := data s;
      calls := S (calls s);
      trace := trace s ++
        [EvLock servicePrincipalResourceName (Get (data s) "service_principal_id");
         EvGet (Get (data s) "service_principal_id");
         EvUnlock servicePrincipalResourceName (Get (data s) "service_principal_id")] |}).
Proof.
  intros Hcred Hkey Hget Hin Hmatch.
  assert (newCredentialsForCreate servicePrincipal credential = None) as Hnone.
  { rewrite newCredentialsForCreate_spec, Hkey. simpl GetOrZero.
    now rewrite (existsb_matches_true _ _ _ Hin Hmatch). }
  split; [exact Hnone|].
  rewrite (Create_locked ctx s credential keyId Hcred Hkey).
  unfold createLocked, bind, GetServicePrincipal, withEvent, return_. simpl.
  rewrite Hget, Hnone. simpl. rewrite <- !app_assoc. reflexivity.
Qed.

(** C8. Read takes no lock on any path.  When the stored identifier parses
    and the directory reports the principal as not found, or returns a
    principal none of whose credentials has the key id (compared without
    regard to case), Read returns no diagnostics and clears the stored
    identifier, after a single fetch. *)
Theorem read_reports_absence_without_lock ctx s :
  (exists added,
     trace (snd (servicePrincipalCertificateResourceRead env ctx s)) = trace s ++ added /\
     lockFree added = true) /\
  (forall id,
     CertificateID (Id (data s)) = inl id ->
     (exists err, getServicePrincipal env (calls s) (ObjectId id) = GetNotFound err) \/
     (exists servicePrincipal,
        getServicePrincipal env (calls s) (ObjectId id) = GetOk (Some servicePrincipal) /\
        forall cred, In cred (credentialsOf servicePrincipal) ->
          EqualFold (GetOrZero (KeyId cred)) (CredKeyId id) = false) ->
     servicePrincipalCertificateResourceRead env ctx s =
     ([], {| data := SetId "" (data s);
             calls := S (calls s);
             trace := trace s ++ [EvGet (ObjectId id)] |})).
Proof.
  split.
  - apply (appending_Read env notLock ctx). reflexivity.
  - intros id Hid Hcases.
    unfold servicePrincipalCertificateResourceRead, run, bind, getData,
      GetServicePrincipal, modify, return_.
    rewrite Hid.
    destruct Hcases as [[err Hget]|(servicePrincipal & Hget & Hnone)]; rewrite Hget.
    + reflexivity.
    + assert (GetKeyCredential (KeyCredentials servicePrincipal) (CredKeyId id) = None) as E.
      { unfold GetKeyCredential, credentialsOf in *.
        destruct (KeyCredentials servicePrincipal) as [creds|]; [|reflexivity].
        apply findByKeyId_none, existsb_matches_false, Hnone. }
      rewrite E. reflexivity.
Qed.

(** C4. For a credential set in which no key id equals that of the new
    credential (without regard to case), and a case-insensitive comparison
    that finds the new key id equal to itself: the set Create builds exists,
    and removing the new key id from it, the way Delete does, gives back the
    credentials of the original set. *)
Theorem remove_after_add_is_identity servicePrincipal credential :
  EqualFold (GetOrZero (KeyId credential)) (GetOrZero (KeyId credential)) = true ->
  (forall cred, In cred (credentialsOf servicePrincipal) ->
     EqualFold (GetOrZero (KeyId cred)) (GetOrZero (KeyId credential)) = false) ->
  exists added,
    newCredentialsForCreate servicePrincipal credential = Some added /\
    newCredentialsForDelete {| KeyCredentials := Some added |}
      (GetOrZero (KeyId credential)) = credentialsOf servicePrincipal.
Proof.
  intros Hrefl Hfresh.
  apply existsb_matches_false in Hfresh.
  exists (credentialsOf servicePrincipal ++ [credential]). split.
  - rewrite newCredentialsForCreate_spec, Hfresh. reflexivity.
  - rewrite newCredentialsForDelete_spec. unfold credentialsOf at 1. simpl.
    rewrite List.filter_app, (filter_none_match _ _ Hfresh). simpl.
    unfold matches at 1. rewrite Hrefl. simpl. apply app_nil_r.
Qed.

Lemma createLocked_poll_failure ctx credential id s1 s2 err args :
  createLocked env ctx credential id s1 =
    (Return (ErrorDiagF err "Waiting for certificate credential for %s" args), s2) ->
  exists servicePrincipal creds polls,
    getServicePrincipal env (calls s1) (ObjectId id) = GetOk (Some servicePrincipal) /\
    newCredentialsForCreate servicePrincipal credential = Some creds /\
    updateServicePrincipal env (ObjectId id) creds = None /\
    trace s2 = trace s1 ++ [EvGet (ObjectId id); EvUpdate (ObjectId id) creds] ++ polls /\
    pollOnly polls = true.
Proof.
  unfold createLocked. unfold bind at 1. unfold GetServicePrincipal at 1.
  destruct (getServicePrincipal env (calls s1) (ObjectId id))
    as [[servicePrincipal|]|e|e] eqn:Hget; try discriminate.
  destruct (newCredentialsForCreate servicePrincipal credential)
    as [creds|] eqn:Hnew; [|discriminate].
  unfold bind at 1. unfold UpdateServicePrincipal at 1.
  destruct (updateServicePrincipal env (ObjectId id) creds) as [e|] eqn:Hupd;
    [discriminate|].
  match goal with |- createConfirm env ctx servicePrincipal id ?s = _ -> _ =>
    destruct (appending_createConfirm env isProbe ctx servicePrincipal id
                (fun _ => eq_refl) (fun _ => eq_refl) s) as (polls & Etrace & Hpolls)
  end.
  intros Hrun. rewrite Hrun in Etrace. simpl in Etrace.
  exists servicePrincipal, creds, polls. rewrite Etrace, <- !app_assoc. simpl. auto.
Qed.

Lemma deleteLocked_poll_failure ctx id s1 s2 err args :
  deleteLocked env ctx id s1 =
    (Return (ErrorDiagF err "Waiting for deletion of certificate credential %q from %s" args),
     s2) ->
  exists servicePrincipal polls,
    getServicePrincipal env (calls s1) (ObjectId id) = GetOk (Some servicePrincipal) /\
    updateServicePrincipal env (ObjectId id)
      (newCredentialsForDelete servicePrincipal (CredKeyId id)) = None /\
    trace s2 = trace s1 ++
      [EvGet (ObjectId id);
       EvUpdate (ObjectId id) (newCredentialsForDelete servicePrincipal (CredKeyId id))] ++
      polls /\
    pollOnly polls = true.
Proof.
  unfold deleteLocked. unfold bind at 1. unfold GetServicePrincipal at 1.
  destruct (getServicePrincipal env (calls s1) (ObjectId id))
    as [[servicePrincipal|]|e|e] eqn:Hget; try discriminate.
  unfold bind at 1. unfold UpdateServicePrincipal at 1.
  destruct (updateServicePrincipal env (ObjectId id) _) as [e|] eqn:Hupd;
    [discriminate|].
  match goal with |- deleteConfirm env ctx servicePrincipal id ?s = _ -> _ =>
    destruct (appending_deleteConfirm env isProbe ctx servicePrincipal id
                (fun _ => eq_refl) (fun _ => eq_refl) s) as (polls & Etrace & Hpolls)
  end.
  intros Hrun. rewrite Hrun in Etrace. simpl in Etrace.
  exists servicePrincipal, polls. rewrite Etrace, <- !app_assoc. simpl. auto.
Qed.

(** C7. Whenever Create or Delete returns the diagnostic of a failed
    confirmation poll, a timeout included, the trace reads: lock, fetch,
    the write of the new credential set, then only probes of the poll, then
    unlock; and the directory had accepted that write.  So the write was
    issued and had succeeded before the first probe. *)
Theorem poll_failure_comes_after_the_write ctx s err :
  (forall args,
     fst (servicePrincipalCertificateResourceCreate env ctx s) =
       ErrorDiagF (Some err) "Waiting for certificate credential for %s" args ->
     exists key creds polls,
       trace (snd (servicePrincipalCertificateResourceCreate env ctx s)) =
         trace s ++ [EvLock servicePrincipalResourceName key; EvGet key; EvUpdate key creds] ++
         polls ++ [EvUnlock servicePrincipalResourceName key] /\
       updateServicePrincipal env key creds = None /\
       pollOnly polls = true) /\
  (forall args,
     fst (servicePrincipalCertificateResourceDelete env ctx s) =
       ErrorDiagF (Some err) "Waiting for deletion of certificate credential %q from %s" args ->
     exists key creds polls,
       trace (snd (servicePrincipalCertificateResourceDelete env ctx s)) =
         trace s ++ [EvLock servicePrincipalResourceName key; EvGet key; EvUpdate key creds] ++
         polls ++ [EvUnlock servicePrincipalResourceName key] /\
       updateServicePrincipal env key creds = None /\
       pollOnly polls = true).
Proof.
  split; intros args.
  - destruct (KeyCredentialForResource (data s)) as [credential|e] eqn:Hcred.
    + destruct (KeyId credential) as [keyId|] eqn:Hkey.
      * rewrite (Create_locked ctx s credential keyId Hcred Hkey).
        set (id := NewCredentialID _ _ _).
        destruct (createLocked env ctx credential id _) as [[diags|[]] s2] eqn:Hrun.
        simpl. intros ->.
        apply createLocked_poll_failure in Hrun
          as (servicePrincipal & creds & polls & _ & _ & Hupd & Etrace & Hpolls).
        exists (ObjectId id), creds, polls. rewrite Etrace. simpl.
        rewrite <- !app_assoc. simpl. auto.
      * unfold servicePrincipalCertificateResourceCreate, run, bind, getData, return_.
        rewrite Hcred, Hkey. discriminate.
    + unfold servicePrincipalCertificateResourceCreate, run, bind, getData, return_.
      rewrite Hcred. discriminate.
  - destruct (CertificateID (Id (data s))) as [id|e] eqn:Hid.
    + rewrite (Delete_locked ctx s id Hid).
      destruct (deleteLocked env ctx id _) as [[diags|[]] s2] eqn:Hrun.
      simpl. intros ->.
      apply deleteLocked_poll_failure in Hrun
        as (servicePrincipal & polls & _ & Hupd & Etrace & Hpolls).
      exists (ObjectId id), (newCredentialsForDelete servicePrincipal (CredKeyId id)), polls.
      rewrite Etrace. simpl. rewrite <- !app_assoc. simpl. auto.
    + unfold servicePrincipalCertificateResourceDelete, run, bind, getData, return_.
      rewrite Hid. discriminate.
Qed.

Lemma no_update_among events key creds :
  forallb notUpdate events = true -> ~ In (EvUpdate key creds) events.
Proof.
  intros Hall Hin. rewrite forallb_forall in Hall.
  apply Hall in Hin. discriminate.
Qed.

Lemma createLocked_writes ctx credential id s1 :
  exists added,
    trace (snd (createLocked env ctx credential id s1)) = trace s1 ++ added /\
    forall key creds, In (EvUpdate key creds) added ->
      exists servicePrincipal,
        getServicePrincipal env (calls s1) key = GetOk (Some servicePrincipal) /\
        creds = credentialsOf servicePrincipal ++ [credential].
Proof.
  unfold createLocked. unfold bind at 1. unfold GetServicePrincipal at 1.
  destruct (getServicePrincipal env (calls s1) (ObjectId id))
    as [[servicePrincipal|]|e|e] eqn:Hget;
    try (exists [EvGet (ObjectId id)]; split; [reflexivity|];
         intros key creds [Hin|[]]; discriminate).
  pose proof (newCredentialsForCreate_spec servicePrincipal credential) as Hspec.
  destruct (newCredentialsForCreate servicePrincipal credential) as [newCredentials|].
  - assert (newCredentials = credentialsOf servicePrincipal ++ [credential]) as Hnew.
    { destruct (existsb _ _); [discriminate|]. now inversion Hspec. }
    unfold bind at 1. unfold UpdateServicePrincipal at 1.
    destruct (updateServicePrincipal env (ObjectId id) newCredentials) as [e|].
    + exists [EvGet (ObjectId id); EvUpdate (ObjectId id) newCredentials]. simpl.
      rewrite <- app_assoc. split; [reflexivity|].
      intros key creds [Hin|[Hin|[]]]; [discriminate|].
      inversion Hin; subst key creds. exists servicePrincipal. now split.
    + match goal with |- context [createConfirm env ctx servicePrincipal id ?s] =>
        destruct (appending_createConfirm env notUpdate ctx servicePrincipal id
                    (fun _ => eq_refl) (fun _ => eq_refl) s) as (rest & Etrace & Hrest)
      end.
      exists ([EvGet (ObjectId id); EvUpdate (ObjectId id) newCredentials] ++ rest).
      rewrite Etrace. simpl. rewrite <- !app_assoc. split; [reflexivity|].
      intros key creds [Hin|[Hin|Hin]]; [discriminate| |].
      * inversion Hin; subst key creds. exists servicePrincipal. now split.
      * now apply no_update_among in Hin.
  - exists [EvGet (ObjectId id)]. split; [reflexivity|].
    intros key creds [Hin|[]]; discriminate.
Qed.

Lemma deleteLocked_writes ctx id s1 :
  exists added,
    trace (snd (deleteLocked env ctx id s1)) = trace s1 ++ added /\
    forall key creds, In (EvUpdate key creds) added ->
      exists servicePrincipal,
        getServicePrincipal env (calls s1) key = GetOk (Some servicePrincipal) /\
        creds = List.filter
                  (fun cred => negb (EqualFold (GetOrZero (KeyId cred)) (CredKeyId id)))
                  (credentialsOf servicePrincipal).
Proof.
  unfold deleteLocked. unfold bind at 1. unfold GetServicePrincipal at 1.
  destruct (getServicePrincipal env (calls s1) (ObjectId id))
    as [[servicePrincipal|]|e|e] eqn:Hget;
    try (exists [EvGet (ObjectId id)]; split; [reflexivity|];
         intros key creds [Hin|[]]; discriminate).
  pose proof (newCredentialsForDelete_spec servicePrincipal (CredKeyId id)) as Hspec.
  unfold bind at 1. unfold UpdateServicePrincipal at 1.
  destruct (updateServicePrincipal env (ObjectId id) _) as [e|].
  - eexists [EvGet (ObjectId id); EvUpdate (ObjectId id) _]. simpl.
    rewrite <- app_assoc. split; [reflexivity|].
    intros key creds [Hin|[Hin|[]]]; [discriminate|].
    inversion Hin; subst key creds. exists servicePrincipal. now split.
  - match goal with |- context [deleteConfirm env ctx servicePrincipal id ?s] =>
      destruct (appending_deleteConfirm env notUpdate ctx servicePrincipal id
                  (fun _ => eq_refl) (fun _ => eq_refl) s) as (rest & Etrace & Hrest)
    end.
    eexists ([EvGet (ObjectId id); EvUpdate (ObjectId id) _] ++ rest).
    rewrite Etrace. simpl. rewrite <- !app_assoc. split; [reflexivity|].
    intros key creds [Hin|[Hin|Hin]]; [discriminate| |].
    + inversion Hin; subst key creds. exists servicePrincipal. now split.
    + now apply no_update_among in Hin.
Qed.

(** C10. Every set Create writes is the fetched credentials, unchanged and
    in their order, followed by the new credential; every set Delete writes
    is the fetched credentials, unchanged and in their order, without those
    whose key id matches the one to remove.  Nothing else is dropped,
    changed or moved. *)
Theorem untargeted_credentials_are_kept_in_order ctx s :
  (exists added,
     trace (snd (servicePrincipalCertificateResourceCreate env ctx s)) = trace s ++ added /\
     forall key creds, In (EvUpdate key creds) added ->
       exists credential servicePrincipal,
         KeyCredentialForResource (data s) = inl credential /\
         getServicePrincipal env (calls s) key = GetOk (Some servicePrincipal) /\
         creds = credentialsOf servicePrincipal ++ [credential]) /\
  (exists added,
     trace (snd (servicePrincipalCertificateResourceDelete env ctx s)) = trace s ++ added /\
     forall key creds, In (EvUpdate key creds) added ->
       exists id servicePrincipal,
         CertificateID (Id (data s)) = inl id /\
         getServicePrincipal env (calls s) key = GetOk (Some servicePrincipal) /\
         creds = List.filter
                   (fun cred => negb (EqualFold (GetOrZero (KeyId cred)) (CredKeyId id)))
                   (credentialsOf servicePrincipal)).
Proof.
  split.
  - destruct (KeyCredentialForResource (data s)) as [credential|e] eqn:Hcred.
    + destruct (KeyId credential) as [keyId|] eqn:Hkey.
      * rewrite (Create_locked ctx s credential keyId Hcred Hkey).
        set (id := NewCredentialID _ _ _).
        destruct (createLocked_writes ctx credential id
                    (withEvent (EvLock servicePrincipalResourceName (ObjectId id)) s))
          as (added & Etrace & Hwrites).
        destruct (createLocked env ctx credential id _) as [[diags|[]] s2].
        simpl in *.
        exists (EvLock servicePrincipalResourceName (ObjectId id) :: added ++
                [EvUnlock servicePrincipalResourceName (ObjectId id)]).
        rewrite Etrace, <- !app_assoc. split; [reflexivity|].
        intros key creds [Hin|Hin]; [discriminate|].
        apply in_app_or in Hin as [Hin|[Hin|[]]]; [|discriminate].
        destruct (Hwrites key creds Hin) as (servicePrincipal & Hget & Hcreds).
        exists credential, servicePrincipal. auto.
      * unfold servicePrincipalCertificateResourceCreate, run, bind, getData, return_.
        rewrite Hcred, Hkey. exists []. simpl. rewrite app_nil_r.
        split; [reflexivity|]. intros key creds [].
    + unfold servicePrincipalCertificateResourceCreate, run, bind, getData, return_.
      rewrite Hcred. exists []. simpl. rewrite app_nil_r.
      split; [reflexivity|]. intros key creds [].
  - destruct (CertificateID (Id (data s))) as [id|e] eqn:Hid.
    + rewrite (Delete_locked ctx s id Hid).
      destruct (deleteLocked_writes ctx id
                  (withEvent (EvLock servicePrincipalResourceName (ObjectId id)) s))
        as (added & Etrace & Hwrites).
      destruct (deleteLocked env ctx id _) as [[diags|[]] s2].
      simpl in *.
      exists (EvLock servicePrincipalResourceName (ObjectId id) :: added ++
              [EvUnlock servicePrincipalResourceName (ObjectId id)]).
      rewrite Etrace, <- !app_assoc. split; [reflexivity|].
      intros key creds [Hin|Hin]; [discriminate|].
      apply in_app_or in Hin as [Hin|[Hin|[]]]; [|discriminate].
      destruct (Hwrites key creds Hin) as (servicePrincipal & Hget & Hcreds).
      exists id, servicePrincipal. auto.
    + unfold servicePrincipalCertificateResourceDelete, run, bind, getData, return_.
      rewrite Hid. exists []. simpl. rewrite app_nil_r.
      split; [reflexivity|]. intros key creds [].
Qed.

End Paths.

(** ** The confirmation polls *)

Section Polls.

Context `{Collaborators}.
Variable env : Env.

Lemma observed_app l1 l2 : observed (l1 ++ l2) = observed l1 ++ observed l2.
Proof.
  induction l1 as [|e l1 IH]; simpl; [reflexivity|].
  destruct e; simpl; now rewrite IH.
Qed.

Lemma silentProbe_createRefresh servicePrincipal servicePrincipalId id :
  silentProbe (createRefresh env servicePrincipal servicePrincipalId id).
Proof.
  intros s. unfold createRefresh, bind, GetServicePrincipal, ret.
  destruct (getServicePrincipal env (calls s) servicePrincipalId) as [model|err|err];
    [destruct (match KeyCredentials servicePrincipal with Some _ => _ | None => _ end)| |];
    eexists; eexists; (split; [reflexivity|]);
    exists [EvGet servicePrincipalId]; simpl; auto.
Qed.

(** A poll that ends in success has seen a closing run of target labels that
    fills the required count: counted from [hits] when nothing else was seen
    in this call, from zero otherwise. *)
Lemma waitForState_success {V} (conf : StateChangeConf V) rounds :
  silentProbe (Refresh conf) ->
  forall hits last lastState s v s',
    waitForState conf rounds hits last lastState s = (Next (v, None), s') ->
    exists added before closing,
      trace s' = trace s ++ added /\
      observed added = before ++ closing /\
      allIn (Target conf) closing = true /\
      ((before = [] /\ ContinuousTargetOccurence conf <= hits + Z.of_nat (length closing)) \/
       (before <> [] /\ ContinuousTargetOccurence conf <= Z.of_nat (length closing))).
Proof.
  intros Hprobe. induction rounds as [|rounds IH]; intros hits last lastState s v s'.
  - simpl. unfold ret. discriminate.
  - simpl. unfold bind at 1.
    destruct (Hprobe s) as ([[v0 label] err] & s1 & Hrun & probe & E1 & Hsilent & _).
    rewrite Hrun. destruct err as [err|]; [unfold ret; discriminate|].
    unfold bind at 1. unfold emit at 1.
    destruct (inLabels label (Target conf)) eqn:Htarget.
    + destruct (ContinuousTargetOccurence conf <=? hits + 1) eqn:Hcount.
      * unfold ret. intros E. inversion E; subst. clear E.
        exists (probe ++ [EvObserved label]), [], [label]. simpl.
        rewrite E1, <- app_assoc, observed_app, Hsilent. simpl.
        unfold inLabels in Htarget. rewrite Htarget. simpl.
        repeat split; try reflexivity. left. split; [reflexivity|].
        apply Z.leb_le in Hcount. lia.
      * intros Hrec. apply IH in Hrec
          as (added & before & closing & E2 & Hobs & Hall & Hlen).
        simpl in E2. destruct before as [|b before].
        -- exists (probe ++ EvObserved label :: added), [], (label :: closing).
           rewrite E2, E1, <- !app_assoc, observed_app, Hsilent. simpl.
           rewrite Hobs. simpl. unfold inLabels in Htarget. rewrite Htarget, Hall.
           repeat split; try reflexivity. left. split; [reflexivity|].
           destruct Hlen as [[_ Hlen]|[Hne _]]; [|congruence]. simpl in Hlen. lia.
        -- exists (probe ++ EvObserved label :: added), (label :: b :: before), closing.
           rewrite E2, E1, <- !app_assoc, observed_app, Hsilent. simpl.
           rewrite Hobs. repeat split; try reflexivity; [exact Hall|].
           right. split; [discriminate|].
           destruct Hlen as [[Hnil _]|[_ Hlen]]; [discriminate|exact Hlen].
    + destruct (inLabels label (Pending conf)); [|unfold ret; discriminate].
      intros Hrec. apply IH in Hrec
        as (added & before & closing & E2 & Hobs & Hall & Hlen).
      simpl in E2.
      exists (probe ++ EvObserved label :: added), (label :: before), closing.
      rewrite E2, E1, <- !app_assoc, observed_app, Hsilent. simpl.
      rewrite Hobs. repeat split; try reflexivity; [exact Hall|].
      right. split; [discriminate|].
      destruct Hlen as [[_ Hlen]|[_ Hlen]]; lia.
Qed.

(** The poller scenario of the specification: on the label sequence
    pending, pending, target, target, pending and then five times target,
    with five hits required, the interleaved pending resets the count; the
    poll succeeds at the tenth probe and not before. *)
Lemma poll_counts_consecutive_hits_only :
  let script := ["pending"; "pending"; "target"; "target"; "pending";
                 "target"; "target"; "target"; "target"; "target"] in
  fst (waitForState (scriptedConf script) 10 0 None ""
         {| data := storedData ""; calls := 0; trace := [] |}) =
    Next (Some tt, None) /\
  fst (waitForState (scriptedConf script) 9 0 None ""
         {| data := storedData ""; calls := 0; trace := [] |}) =
    Next (Some tt, Some (TimeoutError "target")).
Proof. split; reflexivity. Qed.

Lemma allIn_singleton label seen :
  allIn [label] seen = true -> Forall (eq label) seen.
Proof.
  induction seen as [|l seen IH]; simpl; [constructor|].
  intros Hall. apply andb_prop in Hall as [Hl Hrest].
  rewrite orb_false_r in Hl. apply String.eqb_eq in Hl. subst.
  constructor; [reflexivity|now apply IH].
Qed.

(** C9. The poll configuration Create builds asks for 5 consecutive target
    observations, polls no faster than once a second, and has as timeout the
    time left until the deadline of the caller's context.  A poll run with
    it that ends in success has logged, last of all, at least 5 "Done"
    labels in a row. *)
Theorem attach_poll_settings ctx servicePrincipal servicePrincipalId id :
  let conf := createStateChangeConf env ctx servicePrincipal servicePrincipalId id in
  ContinuousTargetOccurence conf = 5 /\
  MinTimeout conf = 1000000000 /\
  (forall deadline, Deadline ctx = Some deadline ->
     Timeout conf = time_Until (now env) deadline) /\
  (forall s v s',
     WaitForStateContext env conf s = (Next (v, None), s') ->
     exists added before closing,
       trace s' = trace s ++ added /\
       observed added = before ++ closing /\
       Forall (eq "Done") closing /\
       (5 <= length closing)%nat).
Proof.
  intros conf. repeat split.
  - intros deadline Hdeadline. simpl. now rewrite Hdeadline.
  - intros s v s' Hrun. unfold WaitForStateContext in Hrun.
    apply waitForState_success in Hrun
      as (added & before & closing & E & Hobs & Hall & Hlen);
      [|apply silentProbe_createRefresh].
    exists added, before, closing. repeat split; try assumption.
    + now apply allIn_singleton.
    + simpl in Hlen. destruct Hlen as [[_ Hlen]|[_ Hlen]]; lia.
Qed.

End Polls.

(** ** What the probes look at *)

Section Probes.

Context `{Collaborators}.
Variable env : Env.

(** Once its fetch succeeds, the probe of Create answers from the model
    captured before the write, whatever the fetch returned. *)
Lemma createRefresh_reads_captured_model servicePrincipal servicePrincipalId id s model :
  getServicePrincipal env (calls s) servicePrincipalId = GetOk model ->
  fst (createRefresh env servicePrincipal servicePrincipalId id s) =
  Next (match GetKeyCredential (KeyCredentials servicePrincipal) (CredKeyId id) with
        | Some cred => (Some cred, "Done", None)
        | None => (None, "Waiting", None)
        end).
Proof.
  intros Hget. unfold createRefresh, bind, GetServicePrincipal. rewrite Hget.
  unfold GetKeyCredential. destruct (KeyCredentials servicePrincipal) as [creds|].
  - pose proof (findByKeyId_firstWithKeyId creds (CredKeyId id)) as E.
    destruct (firstWithKeyId creds _); now rewrite E.
  - reflexivity.
Qed.

(** The same for the existence check of Delete. *)
Lemma deleteExists_reads_captured_model servicePrincipal servicePrincipalId id s model :
  getServicePrincipal env (calls s) servicePrincipalId = GetOk model ->
  fst (deleteExists env servicePrincipal servicePrincipalId id s) =
  Next (match GetKeyCredential (KeyCredentials servicePrincipal) (CredKeyId id) with
        | Some _ => (Some true, None)
        | None => (Some false, None)
        end).
Proof.
  intros Hget. unfold deleteExists, bind, GetServicePrincipal. rewrite Hget.
  now destruct (GetKeyCredential _ _).
Qed.

End Probes.

(** ** Concrete runs *)

Section Runs.

#[local] Existing Instance sampleCollaborators.

Lemma foldEqByte_refl a : foldEqByte a a = true.
Proof. unfold foldEqByte. now rewrite Z.eqb_refl. Qed.

Lemma asciiEqualFold_refl s : asciiEqualFold s s = true.
Proof.
  induction s as [|a s IH]; simpl; [reflexivity|].
  now rewrite foldEqByte_refl, IH.
Qed.

(** C1, the claim as written fails: the stored identifier parses, the
    directory answers the fetch of Delete with not found, and Delete returns
    diagnostics instead of none. *)
Lemma detach_not_found_returns_diagnostics :
  CertificateID (Id (storedData "p1/certificate/k1")) =
    inl (NewCredentialID "p1" "certificate" "k1") /\
  getServicePrincipal goneEnv 0 "p1" = GetNotFound (ClientError "404 Not Found") /\
  HasError (fst (servicePrincipalCertificateResourceDelete goneEnv sampleCtx
                   (startState (storedData "p1/certificate/k1")))) = true.
Proof.
  split; [reflexivity|]. split; [reflexivity|].
  vm_compute. reflexivity.
Qed.

Lemma detach_principal_not_found_is_an_error_witness :
  CertificateID (Id (storedData "p1/certificate/k1")) =
    inl (NewCredentialID "p1" "certificate" "k1") /\
  getServicePrincipal goneEnv 0 "p1" = GetNotFound (ClientError "404 Not Found") /\
  servicePrincipalCertificateResourceDelete goneEnv sampleCtx
    (startState (storedData "p1/certificate/k1")) =
  (ErrorDiagPathF (Some (errors_New "Service Principal was not found"))
     "service_principal_id" "Retrieving %s" ["p1"],
   {| data := storedData "p1/certificate/k1";
      calls := 1;
      trace := [EvLock "azuread_service_principal" "p1";
                EvGet "p1";
                EvUnlock "azuread_service_principal" "p1"] |}).
Proof.
  split; [reflexivity|]. split; [reflexivity|].
  exact (detach_principal_not_found_is_an_error goneEnv sampleCtx
           (startState (storedData "p1/certificate/k1"))
           (NewCredentialID "p1" "certificate" "k1") (ClientError "404 Not Found")
           eq_refl eq_refl).
Defined.

(** C2 at a failing input.  Create: the directory holds no credential at
    the first fetch and holds the new key id at every later fetch, yet each
    of the 7 probes of the poll answers "Waiting" and Create fails with a
    timeout.  Delete: the directory holds the key id at the first fetch and
    no longer at any later fetch, yet each probe answers "found" and Delete
    fails with a timeout. *)
Theorem probes_answer_from_the_model_fetched_before_the_write :
  (forall n,
     getServicePrincipal (sampleEnv [] [cert "k1"] 7) (S n) "p1" =
       GetOk (Some {| KeyCredentials := Some [cert "k1"] |})) /\
  GetKeyCredential (Some [cert "k1"]) "k1" = Some (cert "k1") /\
  observed (trace (snd (servicePrincipalCertificateResourceCreate
                          (sampleEnv [] [cert "k1"] 7) sampleCtx
                          (startState (configData "p1" "k1" "pem"))))) =
    repeat "Waiting" 7 /\
  fst (servicePrincipalCertificateResourceCreate
         (sampleEnv [] [cert "k1"] 7) sampleCtx
         (startState (configData "p1" "k1" "pem"))) =
    ErrorDiagF (Some (TimeoutError "Waiting"))
      "Waiting for certificate credential for %s" ["p1"] /\
  (forall n,
     getServicePrincipal (sampleEnv [cert "k1"] [] 7) (S n) "p1" =
       GetOk (Some {| KeyCredentials := Some [] |})) /\
  GetKeyCredential (Some []) "k1" = None /\
  observed (trace (snd (servicePrincipalCertificateResourceDelete
                          (sampleEnv [cert "k1"] [] 7) sampleCtx
                          (startState (storedData "p1/certificate/k1"))))) =
    repeat "found" 7 /\
  fst (servicePrincipalCertificateResourceDelete
         (sampleEnv [cert "k1"] [] 7) sampleCtx
         (startState (storedData "p1/certificate/k1"))) =
    ErrorDiagF (Some (TimeoutError "found"))
      "Waiting for deletion of certificate credential %q from %s" ["k1"; "p1"].
Proof. repeat split; vm_compute; reflexivity. Qed.

Lemma attach_taken_key_id_already_exists_witness :
  KeyCredentialForResource (configData "p1" "k1" "pem") =
    inl {| KeyId := Some "k1"; Type_ := Some ""; StartDateTime := None;
           EndDateTime := None; Key := Some "pem" |} /\
  EqualFold "K1" "k1" = true /\
  servicePrincipalCertificateResourceCreate (sampleEnv [cert "K1"] [] 7) sampleCtx
    (startState (configData "p1" "k1" "pem")) =
  (ImportAsExistsDiag "azuread_service_principal_certificate" "p1/certificate/k1",
   {| data := configData "p1" "k1" "pem";
      calls := 1;
      trace := [EvLock "azuread_service_principal" "p1";
                EvGet "p1";
                EvUnlock "azuread_service_principal" "p1"] |}).
Proof.
  split; [reflexivity|]. split; [reflexivity|].
  exact (proj2 (attach_taken_key_id_already_exists (sampleEnv [cert "K1"] [] 7) sampleCtx
           (startState (configData "p1" "k1" "pem"))
           {| KeyId := Some "k1"; Type_ := Some ""; StartDateTime := None;
              EndDateTime := None; Key := Some "pem" |}
           "k1" {| KeyCredentials := Some [cert "K1"] |} (cert "K1")
           eq_refl eq_refl eq_refl (or_introl eq_refl) eq_refl)).
Defined.

Lemma remove_after_add_is_identity_witness :
  (forall cred, In cred [cert "a1"; cert "b2"] ->
     EqualFold (GetOrZero (KeyId cred)) "K1" = false) /\
  exists added,
    newCredentialsForCreate {| KeyCredentials := Some [cert "a1"; cert "b2"] |} (cert "K1") =
      Some added /\
    newCredentialsForDelete {| KeyCredentials := Some added |} "K1" =
      [cert "a1"; cert "b2"].
Proof.
  assert (forall cred, In cred [cert "a1"; cert "b2"] ->
            EqualFold (GetOrZero (KeyId cred)) "K1" = false) as Hfresh.
  { intros cred [<-|[<-|[]]]; reflexivity. }
  split; [exact Hfresh|].
  exact (remove_after_add_is_identity {| KeyCredentials := Some [cert "a1"; cert "b2"] |}
           (cert "K1") eq_refl Hfresh).
Defined.

Lemma poll_failure_comes_after_the_write_witness :
  fst (servicePrincipalCertificateResourceCreate (sampleEnv [] [cert "k1"] 3) sampleCtx
         (startState (configData "p1" "k1" "pem"))) =
    ErrorDiagF (Some (TimeoutError "Waiting"))
      "Waiting for certificate credential for %s" ["p1"] /\
  exists key creds polls,
    trace (snd (servicePrincipalCertificateResourceCreate (sampleEnv [] [cert "k1"] 3)
                  sampleCtx (startState (configData "p1" "k1" "pem")))) =
      [] ++ [EvLock "azuread_service_principal" key; EvGet key; EvUpdate key creds] ++
      polls ++ [EvUnlock "azuread_service_principal" key] /\
    updateServicePrincipal (sampleEnv [] [cert "k1"] 3) key creds = None /\
    pollOnly polls = true.
Proof.
  split; [reflexivity|].
  exact (proj1 (poll_failure_comes_after_the_write (sampleEnv [] [cert "k1"] 3) sampleCtx
                  (startState (configData "p1" "k1" "pem")) (TimeoutError "Waiting"))
           ["p1"] eq_refl).
Defined.

Lemma read_reports_absence_without_lock_witness :
  CertificateID (Id (storedData "p1/certificate/k1")) =
    inl (NewCredentialID "p1" "certificate" "k1") /\
  getServicePrincipal (sampleEnv [cert "a1"] [] 3) 0 "p1" =
    GetOk (Some {| KeyCredentials := Some [cert "a1"] |}) /\
  servicePrincipalCertificateResourceRead (sampleEnv [cert "a1"] [] 3) sampleCtx
    (startState (storedData "p1/certificate/k1")) =
  ([], {| data := storedData ""; calls := 1; trace := [EvGet "p1"] |}).
Proof.
  split; [reflexivity|]. split; [reflexivity|].
  refine (proj2 (read_reports_absence_without_lock (sampleEnv [cert "a1"] [] 3) sampleCtx
                   (startState (storedData "p1/certificate/k1")))
            (NewCredentialID "p1" "certificate" "k1") eq_refl
            (or_intror (ex_intro _ {| KeyCredentials := Some [cert "a1"] |}
                          (conj eq_refl _)))).
  intros cred [<-|[]]. reflexivity.
Defined.

Lemma attach_poll_settings_witness :
  Deadline sampleCtx = Some 300000000000 /\
  Timeout (createStateChangeConf (sampleEnv [] [] 9) sampleCtx
             {| KeyCredentials := Some [cert "k1"] |} "p1"
             (NewCredentialID "p1" "certificate" "k1")) = 300000000000 /\
  exists s',
    WaitForStateContext (sampleEnv [] [] 9)
      (createStateChangeConf (sampleEnv [] [] 9) sampleCtx
         {| KeyCredentials := Some [cert "k1"] |} "p1"
         (NewCredentialID "p1" "certificate" "k1"))
      (startState (storedData "")) = (Next (Some (cert "k1"), None), s') /\
    exists added before closing,
      trace s' = [] ++ added /\
      observed added = before ++ closing /\
      Forall (eq "Done") closing /\
      (5 <= length closing)%nat.
Proof.
  destruct (attach_poll_settings (sampleEnv [] [] 9) sampleCtx
              {| KeyCredentials := Some [cert "k1"] |} "p1"
              (NewCredentialID "p1" "certificate" "k1"))
    as (_ & _ & Htimeout & Hsuccess).
  split; [reflexivity|]. split; [exact (Htimeout 300000000000 eq_refl)|].
  eexists. split; [reflexivity|].
  exact (Hsuccess (startState (storedData "")) _ _ eq_refl).
Defined.

Lemma untargeted_credentials_are_kept_in_order_witness :
  exists credential servicePrincipal,
    KeyCredentialForResource (configData "p1" "k1" "pem") = inl credential /\
    getServicePrincipal (sampleEnv [cert "a1"; cert "b2"] [] 2) 0 "p1" =
      GetOk (Some servicePrincipal) /\
    [cert "a1"; cert "b2";
     {| KeyId := Some "k1"; Type_ := Some ""; StartDateTime := None;
        EndDateTime := None; Key := Some "pem" |}] =
    credentialsOf servicePrincipal ++ [credential].
Proof.
  destruct (proj1 (untargeted_credentials_are_kept_in_order
                     (sampleEnv [cert "a1"; cert "b2"] [] 2) sampleCtx
                     (startState (configData "p1" "k1" "pem"))))
    as (added & Etrace & Hwrites).
  apply (Hwrites "p1").
  vm_compute in Etrace. subst added. simpl. right. right. left. reflexivity.
Defined.

End Runs.

(** * Further properties of the resource *)

(** ** What the polls can and cannot report *)

Section Outcomes.

Context `{Collaborators}.
Variable env : Env.

Lemma keepsData_ret {A} (a : A) : keepsData (ret a).
Proof. intros s. reflexivity. Qed.

Lemma keepsData_return_ {A} diags : keepsData (@return_ A diags).
Proof. intros s. reflexivity. Qed.

Lemma keepsData_emit e : keepsData (emit e).
Proof. intros s. reflexivity. Qed.

Lemma keepsData_bind {A B} (m : Op A) (k : A -> Op B) :
  keepsData m -> (forall a, keepsData (k a)) -> keepsData (bind m k).
Proof.
  intros Hm Hk s. unfold bind. specialize (Hm s).
  destruct (m s) as [[diags|a] s1]; simpl in *; [exact Hm|].
  now rewrite Hk.
Qed.

Lemma keepsData_GetServicePrincipal id : keepsData (GetServicePrincipal env id).
Proof. intros s. reflexivity. Qed.

Lemma keepsData_UpdateServicePrincipal id creds :
  keepsData (UpdateServicePrincipal env id creds).
Proof. intros s. reflexivity. Qed.

Lemma keepsData_waitForState {V} (conf : StateChangeConf V) rounds hits last lastState :
  keepsData (Refresh conf) -> keepsData (waitForState conf rounds hits last lastState).
Proof.
  intros Hr. revert hits last lastState.
  induction rounds as [|rounds IH]; intros hits last lastState; simpl.
  - apply keepsData_ret.
  - apply keepsData_bind; [exact Hr|].
    intros [[v label] [err|]]; [apply keepsData_ret|].
    apply keepsData_bind; [apply keepsData_emit|]. intros _.
    destruct (inLabels label (Target conf)).
    + destruct (_ <=? _); [apply keepsData_ret|apply IH].
    + destruct (inLabels label (Pending conf)); [apply IH|apply keepsData_ret].
Qed.

Lemma keepsData_deleteExists servicePrincipal servicePrincipalId id :
  keepsData (deleteExists env servicePrincipal servicePrincipalId id).
Proof.
  unfold deleteExists. apply keepsData_bind; [apply keepsData_GetServicePrincipal|].
  intros [model|err|err]; try apply keepsData_ret.
  destruct (GetKeyCredential _ _); apply keepsData_ret.
Qed.

Lemma keepsData_WaitForDeletion ctx f :
  keepsData f -> keepsData (WaitForDeletion env ctx f).
Proof.
  intros Hf. unfold WaitForDeletion.
  apply keepsData_bind; [|intros r; apply keepsData_ret].
  unfold WaitForStateContext. apply keepsData_waitForState. simpl.
  apply keepsData_bind; [exact Hf|].
  intros [[[|]|] [err|]]; apply keepsData_ret.
Qed.

Lemma keepsData_deleteLocked ctx id : keepsData (deleteLocked env ctx id).
Proof.
  unfold deleteLocked.
  apply keepsData_bind; [apply keepsData_GetServicePrincipal|].
  intros [[servicePrincipal|]|err|err]; try apply keepsData_return_.
  apply keepsData_bind; [apply keepsData_UpdateServicePrincipal|].
  intros [err|]; [apply keepsData_return_|].
  unfold deleteConfirm. apply keepsData_bind.
  - apply keepsData_WaitForDeletion, keepsData_deleteExists.
  - intros [err|]; apply keepsData_return_.
Qed.

(** A poll whose probe never reports a target label ends in an error. *)
Lemma waitForState_unsettled {V} (conf : StateChangeConf V) rounds :
  neverOnTarget conf ->
  forall hits last lastState s, exists v e s',
    waitForState conf rounds hits last lastState s = (Next (v, Some e), s') /\
    data s' = data s.
Proof.
  intros Hprobe. induction rounds as [|rounds IH]; intros hits last lastState s; simpl.
  - unfold ret. eauto.
  - unfold bind at 1.
    destruct (Hprobe s) as (v & label & err & s1 & Hrun & Hdata & Hlabel).
    rewrite Hrun. destruct err as [err|].
    + unfold ret. eauto.
    + unfold bind at 1. unfold emit at 1. rewrite (Hlabel eq_refl).
      destruct (inLabels label (Pending conf)).
      * destruct (IH 0 v label (withEvent (EvObserved label) s1)) as (v' & e & s' & E & D).
        exists v', e, s'. split; [exact E|]. rewrite D. exact Hdata.
      * unfold ret. exists None, (UnexpectedStateError label), (withEvent (EvObserved label) s1).
        split; [reflexivity|exact Hdata].
Qed.

Lemma firstWithKeyId_none creds keyId :
  existsb (matches keyId) creds = false -> firstWithKeyId creds keyId = None.
Proof.
  intros Hex.
  exact (eq_trans (eq_sym (findByKeyId_firstWithKeyId creds keyId))
           (proj2 (findByKeyId_none creds keyId) Hex)).
Qed.

Lemma createConf_neverOnTarget ctx servicePrincipal servicePrincipalId id :
  existsb (matches (CredKeyId id)) (credentialsOf servicePrincipal) = false ->
  neverOnTarget (createStateChangeConf env ctx servicePrincipal servicePrincipalId id).
Proof.
  intros Hex s. simpl. unfold createRefresh, bind, GetServicePrincipal, ret.
  assert (match KeyCredentials servicePrincipal with
          | Some creds => firstWithKeyId creds (CredKeyId id)
          | None => None
          end = None) as Hnone.
  { unfold credentialsOf in Hex. destruct (KeyCredentials servicePrincipal) as [creds|];
      [now apply firstWithKeyId_none|reflexivity]. }
  destruct (getServicePrincipal env (calls s) servicePrincipalId) as [model|err|err].
  - rewrite Hnone. do 4 eexists. split; [reflexivity|]. split; [reflexivity|].
    intros _. reflexivity.
  - do 4 eexists. split; [reflexivity|]. split; [reflexivity|]. discriminate.
  - do 4 eexists. split; [reflexivity|]. split; [reflexivity|]. discriminate.
Qed.

Lemma createConfirm_fails ctx servicePrincipal id s :
  existsb (matches (CredKeyId id)) (credentialsOf servicePrincipal) = false ->
  exists diags s',
    createConfirm env ctx servicePrincipal id s = (Return diags, s') /\
    HasError diags = true /\ data s' = data s.
Proof.
  intros Hex. unfold createConfirm, WaitForStateContext. unfold bind at 1.
  match goal with |- context [waitForState ?conf ?rounds 0 None "" s] =>
    destruct (waitForState_unsettled conf rounds
                (createConf_neverOnTarget ctx servicePrincipal (ObjectId id) id Hex)
                0 None "" s) as (v & e & s' & E & D)
  end.
  unfold bind. rewrite E. destruct v; unfold return_; eauto.
Qed.

Lemma createLocked_fails ctx credential id s :
  CredKeyId id = GetOrZero (KeyId credential) ->
  exists diags s',
    createLocked env ctx credential id s = (Return diags, s') /\
    HasError diags = true /\ data s' = data s.
Proof.
  intros Hkey. unfold createLocked. unfold bind at 1. unfold GetServicePrincipal at 1.
  destruct (getServicePrincipal env (calls s) (ObjectId id))
    as [[servicePrincipal|]|e|e]; unfold return_; eauto.
  pose proof (newCredentialsForCreate_spec servicePrincipal credential) as Hspec.
  destruct (newCredentialsForCreate servicePrincipal credential) as [creds|]; eauto.
  destruct (existsb _ _) eqn:Hex; [discriminate|]. rewrite <- Hkey in Hex.
  unfold bind at 1. unfold UpdateServicePrincipal at 1.
  destruct (updateServicePrincipal env (ObjectId id) creds) as [e|]; eauto.
  match goal with |- context [createConfirm env ctx servicePrincipal id ?s1] =>
    destruct (createConfirm_fails ctx servicePrincipal id s1 Hex) as (diags & s' & E & Herr & D)
  end.
  exists diags, s'. auto.
Qed.

End Outcomes.

(** ** Verdicts of Create and Delete *)

Section Verdicts.

Context `{Collaborators}.
Variable env : Env.

(** X1. Create never reports success and never changes the resource data.  The
    probe of its poll looks at the credentials fetched before the write,
    and those cannot hold the new key id, or Create would have left with
    the already-exists diagnostic; so the poll never sees its target label
    and the identifier is never stored. *)
Theorem create_never_reports_success ctx s :
  HasError (fst (servicePrincipalCertificateResourceCreate env ctx s)) = true /\
  data (snd (servicePrincipalCertificateResourceCreate env ctx s)) = data s.
Proof.
  destruct (KeyCredentialForResource (data s)) as [credential|e] eqn:Hcred.
  - destruct (KeyId credential) as [keyId|] eqn:Hkey.
    + rewrite (Create_locked env ctx s credential keyId Hcred Hkey).
      set (id := NewCredentialID _ _ _).
      destruct (createLocked_fails env ctx credential id
                  (withEvent (EvLock servicePrincipalResourceName (ObjectId id)) s))
        as (diags & s' & E & Herr & D).
      { subst id. simpl. now rewrite Hkey. }
      rewrite E. simpl. split; [exact Herr|exact D].
    + unfold servicePrincipalCertificateResourceCreate, run, bind, getData, return_.
      rewrite Hcred, Hkey. split; reflexivity.
  - unfold servicePrincipalCertificateResourceCreate, run, bind, getData, return_.
    rewrite Hcred. split; reflexivity.
Qed.

(** X3. Delete never changes the resource data: on no path does it clear or
    set the stored identifier or an attribute. *)
Theorem delete_keeps_resource_data ctx s :
  data (snd (servicePrincipalCertificateResourceDelete env ctx s)) = data s.
Proof.
  destruct (CertificateID (Id (data s))) as [id|e] eqn:Hid.
  - rewrite (Delete_locked env ctx s id Hid).
    pose proof (keepsData_deleteLocked env ctx id
                  (withEvent (EvLock servicePrincipalResourceName (ObjectId id)) s)) as D.
    destruct (deleteLocked env ctx id _) as [[diags|[]] s']. exact D.
  - unfold servicePrincipalCertificateResourceDelete, run, bind, getData, return_.
    rewrite Hid. reflexivity.
Qed.

Lemma WaitForDeletion_fails_while_found ctx f :
  (forall s, exists r s',
      f s = (Next r, s') /\ data s' = data s /\
      (r = (Some true, None) \/ exists err, r = (None, Some err))) ->
  forall s, exists e s', WaitForDeletion env ctx f s = (Next (Some e), s').
Proof.
  intros Hf s. unfold WaitForDeletion, WaitForStateContext. unfold bind at 1.
  match goal with |- context [waitForState ?conf ?rounds 0 None "" s] =>
    assert (neverOnTarget conf) as Hprobe;
    [|destruct (waitForState_unsettled conf rounds Hprobe 0 None "" s)
        as (v & e & s' & E & _); rewrite E; unfold ret; simpl; eauto]
  end.
  intros s0. simpl. unfold bind.
  destruct (Hf s0) as (r & s1 & Hrun & Hdata & [->|[err ->]]); rewrite Hrun; unfold ret.
  - do 4 eexists. split; [reflexivity|]. split; [exact Hdata|]. intros _. reflexivity.
  - do 4 eexists. split; [reflexivity|]. split; [exact Hdata|]. discriminate.
Qed.

Lemma deleteExists_found servicePrincipal servicePrincipalId id cred :
  GetKeyCredential (KeyCredentials servicePrincipal) (CredKeyId id) = Some cred ->
  forall s, exists r s',
    deleteExists env servicePrincipal servicePrincipalId id s = (Next r, s') /\
    data s' = data s /\
    (r = (Some true, None) \/ exists err, r = (None, Some err)).
Proof.
  intros Hfound s. unfold deleteExists, bind, GetServicePrincipal, ret. rewrite Hfound.
  destruct (getServicePrincipal env (calls s) servicePrincipalId) as [model|err|err];
    do 2 eexists; (split; [reflexivity|]); (split; [reflexivity|]); eauto.
Qed.

Lemma deleteLocked_success ctx id s s' :
  deleteLocked env ctx id s = (Return [], s') ->
  exists servicePrincipal,
    getServicePrincipal env (calls s) (ObjectId id) = GetOk (Some servicePrincipal) /\
    updateServicePrincipal env (ObjectId id)
      (newCredentialsForDelete servicePrincipal (CredKeyId id)) = None /\
    GetKeyCredential (KeyCredentials servicePrincipal) (CredKeyId id) = None.
Proof.
  unfold deleteLocked. unfold bind at 1. unfold GetServicePrincipal at 1.
  destruct (getServicePrincipal env (calls s) (ObjectId id))
    as [[servicePrincipal|]|e|e] eqn:Hget; try discriminate.
  unfold bind at 1. unfold UpdateServicePrincipal at 1.
  destruct (updateServicePrincipal env (ObjectId id) _) as [e|] eqn:Hupd; [discriminate|].
  destruct (GetKeyCredential (KeyCredentials servicePrincipal) (CredKeyId id))
    as [cred|] eqn:Hfound; [|eauto].
  unfold deleteConfirm. unfold bind at 1.
  match goal with |- context [WaitForDeletion env ctx ?f ?s1] =>
    destruct (WaitForDeletion_fails_while_found ctx f
                (deleteExists_found servicePrincipal (ObjectId id) id cred Hfound) s1)
      as (e & s2 & E)
  end.
  rewrite E. discriminate.
Qed.

(** X2. Delete reports success only when the key id was already absent: the
    stored identifier parsed, the first fetch returned a principal none of
    whose credentials has the key id, and the set Delete wrote, and the
    directory accepted, is the fetched set as it was. *)
Theorem delete_succeeds_only_when_absent ctx s :
  fst (servicePrincipalCertificateResourceDelete env ctx s) = [] ->
  exists id servicePrincipal,
    CertificateID (Id (data s)) = inl id /\
    getServicePrincipal env (calls s) (ObjectId id) = GetOk (Some servicePrincipal) /\
    (forall cred, In cred (credentialsOf servicePrincipal) ->
       EqualFold (GetOrZero (KeyId cred)) (CredKeyId id) = false) /\
    newCredentialsForDelete servicePrincipal (CredKeyId id) =
      credentialsOf servicePrincipal /\
    updateServicePrincipal env (ObjectId id) (credentialsOf servicePrincipal) = None.
Proof.
  destruct (CertificateID (Id (data s))) as [id|e] eqn:Hid.
  - rewrite (Delete_locked env ctx s id Hid).
    destruct (deleteLocked env ctx id _) as [[diags|[]] s'] eqn:Hrun.
    simpl. intros ->.
    apply deleteLocked_success in Hrun as (servicePrincipal & Hget & Hupd & Hnone).
    assert (existsb (matches (CredKeyId id)) (credentialsOf servicePrincipal) = false)
      as Hex.
    { unfold GetKeyCredential, credentialsOf in *.
      destruct (KeyCredentials servicePrincipal) as [creds|]; [|reflexivity].
      now apply findByKeyId_none. }
    assert (newCredentialsForDelete servicePrincipal (CredKeyId id) =
            credentialsOf servicePrincipal) as Hsame.
    { rewrite newCredentialsForDelete_spec. now apply filter_none_match. }
    exists id, servicePrincipal. rewrite <- Hsame at 2.
    repeat split; try assumption. now apply existsb_matches_false.
  - unfold servicePrincipalCertificateResourceDelete, run, bind, getData, return_.
    rewrite Hid. discriminate.
Qed.

End Verdicts.

(** ** Failure paths and what each operation touches *)

Section Failures.

Context `{Collaborators}.
Variable env : Env.

(** X4. A stored identifier that does not parse makes Read and Delete return a
    diagnostic on [id] that carries the parse error; neither takes the lock
    or contacts the directory, and the state is left as it was. *)
Theorem malformed_identifier_stops_read_and_delete ctx s err :
  CertificateID (Id (data s)) = inr err ->
  servicePrincipalCertificateResourceRead env ctx s =
    (ErrorDiagPathF (Some err) "id" "Parsing certificate credential with ID %q"
       [Id (data s)], s) /\
  servicePrincipalCertificateResourceDelete env ctx s =
    (ErrorDiagPathF (Some err) "id" "Parsing certificate credential with ID %q"
       [Id (data s)], s).
Proof.
  intros Hid.
  unfold servicePrincipalCertificateResourceRead, servicePrincipalCertificateResourceDelete,
    run, bind, getData, return_.
  rewrite Hid. split; reflexivity.
Qed.

(** X5. When no credential with a key id can be built from the resource data,
    Create returns its diagnostic without taking the lock or contacting the
    directory: the state is left as it was.  A failure of the credential
    builder is reported on the attribute the builder names, or on none. *)
Theorem create_without_credential_touches_nothing ctx s :
  (forall credential, KeyCredentialForResource (data s) = inl credential ->
     KeyId credential = None) ->
  servicePrincipalCertificateResourceCreate env ctx s =
    (match KeyCredentialForResource (data s) with
     | inr err =>
         ErrorDiagPathF (Some err)
           (match err with CredentialError attr _ => attr | _ => "" end)
           "Generating certificate credentials for service principal with object ID %q"
           [Get (data s) "service_principal_id"]
     | inl _ =>
         ErrorDiagF (Some (errors_New "keyId for certificate credential is nil"))
           "Creating certificate credential" []
     end, s).
Proof.
  intros Hnone.
  unfold servicePrincipalCertificateResourceCreate, run, bind, getData, return_.
  destruct (KeyCredentialForResource (data s)) as [credential|err]; [|reflexivity].
  now rewrite (Hnone credential eq_refl).
Qed.

(** X6. When the directory reports the principal as not found at the fetch of
    Create, Create returns "was not found" on [service_principal_id] with no
    underlying error attached, writes nothing and releases the lock. *)
Theorem create_principal_not_found ctx s credential keyId err :
  KeyCredentialForResource (data s) = inl credential ->
  KeyId credential = Some keyId ->
  getServicePrincipal env (calls s) (Get (data s) "service_principal_id") =
    GetNotFound err ->
  servicePrincipalCertificateResourceCreate env ctx s =
  (ErrorDiagPathF None "service_principal_id" "%s was not found"
     [Get (data s) "service_principal_id"],
   {| data := data s;
      calls := S (calls s);
      trace := trace s ++
        [EvLock servicePrincipalResourceName (Get (data s) "service_principal_id");
         EvGet (Get (data s) "service_principal_id");
         EvUnlock servicePrincipalResourceName (Get (data s) "service_principal_id")] |}).
Proof.
  intros Hcred Hkey Hget.
  rewrite (Create_locked env ctx s credential keyId Hcred Hkey).
  unfold createLocked, bind, GetServicePrincipal, withEvent, return_. simpl.
  rewrite Hget. simpl. rewrite <- !app_assoc. reflexivity.
Qed.

(** X7. When the directory rejects the write of Create, Create returns the
    error under "Adding certificate", no probe follows the write, and the
    lock is released. *)
Theorem create_rejected_write_ends_the_operation ctx s credential keyId servicePrincipal
  creds err :
  KeyCredentialForResource (data s) = inl credential ->
  KeyId credential = Some keyId ->
  getServicePrincipal env (calls s) (Get (data s) "service_principal_id") =
    GetOk (Some servicePrincipal) ->
  newCredentialsForCreate servicePrincipal credential = Some creds ->
  updateServicePrincipal env (Get (data s) "service_principal_id") creds = Some err ->
  servicePrincipalCertificateResourceCreate env ctx s =
  (ErrorDiagF (Some err) "Adding certificate for %s" [Get (data s) "service_principal_id"],
   {| data := data s;
      calls := S (calls s);
      trace := trace s ++
        [EvLock servicePrincipalResourceName (Get (data s) "service_principal_id");
         EvGet (Get (data s) "service_principal_id");
         EvUpdate (Get (data s) "service_principal_id") creds;
         EvUnlock servicePrincipalResourceName (Get (data s) "service_principal_id")] |}).
Proof.
  intros Hcred Hkey Hget Hnew Hupd.
  rewrite (Create_locked env ctx s credential keyId Hcred Hkey).
  unfold createLocked, bind, GetServicePrincipal, UpdateServicePrincipal, withEvent,
    return_. simpl.
  rewrite Hget, Hnew. simpl. rewrite Hupd. simpl. rewrite <- !app_assoc. reflexivity.
Qed.

(** X8. When the directory rejects the write of Delete, Delete returns the
    error under "Removing certificate credential", no probe follows the
    write, and the lock is released. *)
Theorem delete_rejected_write_ends_the_operation ctx s id servicePrincipal err :
  CertificateID (Id (data s)) = inl id ->
  getServicePrincipal env (calls s) (ObjectId id) = GetOk (Some servicePrincipal) ->
  updateServicePrincipal env (ObjectId id)
    (newCredentialsForDelete servicePrincipal (CredKeyId id)) = Some err ->
  servicePrincipalCertificateResourceDelete env ctx s =
  (ErrorDiagF (Some err) "Removing certificate credential %q from %s"
     [CredKeyId id; ObjectId id],
   {| data := data s;
      calls := S (calls s);
      trace := trace s ++
        [EvLock servicePrincipalResourceName (ObjectId id);
         EvGet (ObjectId id);
         EvUpdate (ObjectId id) (newCredentialsForDelete servicePrincipal (CredKeyId id));
         EvUnlock servicePrincipalResourceName (ObjectId id)] |}).
Proof.
  intros Hid Hget Hupd.
  rewrite (Delete_locked env ctx s id Hid).
  unfold deleteLocked, bind, GetServicePrincipal, UpdateServicePrincipal, withEvent,
    return_. simpl.
  rewrite Hget. simpl. rewrite Hupd. simpl. rewrite <- !app_assoc. reflexivity.
Qed.

(** X10. Deleting a key id that no fetched credential has still writes: the set
    sent to the directory is the fetched set, unchanged. *)
Theorem delete_of_absent_key_writes_the_set_back ctx s id servicePrincipal :
  CertificateID (Id (data s)) = inl id ->
  getServicePrincipal env (calls s) (ObjectId id) = GetOk (Some servicePrincipal) ->
  (forall cred, In cred (credentialsOf servicePrincipal) ->
     EqualFold (GetOrZero (KeyId cred)) (CredKeyId id) = false) ->
  exists rest,
    trace (snd (servicePrincipalCertificateResourceDelete env ctx s)) =
    trace s ++
      [EvLock servicePrincipalResourceName (ObjectId id);
       EvGet (ObjectId id);
       EvUpdate (ObjectId id) (credentialsOf servicePrincipal)] ++ rest.
Proof.
  intros Hid Hget Hnone.
  assert (newCredentialsForDelete servicePrincipal (CredKeyId id) =
          credentialsOf servicePrincipal) as Hsame.
  { rewrite newCredentialsForDelete_spec. apply filter_none_match.
    now apply existsb_matches_false. }
  rewrite (Delete_locked env ctx s id Hid).
  unfold deleteLocked. unfold bind at 1. unfold GetServicePrincipal at 1.
  cbn [calls withEvent]. rewrite Hget, Hsame.
  unfold bind at 1. unfold UpdateServicePrincipal at 1.
  destruct (updateServicePrincipal env (ObjectId id) _) as [e|].
  - unfold return_, withEvent. simpl. eexists [_].
    rewrite <- !app_assoc. reflexivity.
  - match goal with |- context [deleteConfirm env ctx servicePrincipal id ?s1] =>
      destruct (appending_deleteConfirm env (fun _ => true) ctx servicePrincipal id
                  (fun _ => eq_refl) (fun _ => eq_refl) s1) as (polls & Etrace & _);
      destruct (deleteConfirm env ctx servicePrincipal id s1) as [[diags|[]] s2]
    end.
    simpl in *. exists (polls ++ [EvUnlock servicePrincipalResourceName (ObjectId id)]).
    rewrite Etrace, <- !app_assoc. reflexivity.
Qed.

End Failures.

(** ** Writes, locks and the read-back *)

Section Writes.

Context `{Collaborators}.
Variable env : Env.

Lemma countUpdates_app l1 l2 :
  countUpdates (l1 ++ l2) = (countUpdates l1 + countUpdates l2)%nat.
Proof. unfold countUpdates. now rewrite List.filter_app, List.length_app. Qed.

Lemma countUpdates_none events :
  forallb notUpdate events = true -> countUpdates events = 0%nat.
Proof.
  unfold countUpdates. induction events as [|e events IH]; simpl; [reflexivity|].
  intros Hall. apply andb_prop in Hall as [He Hrest].
  unfold notUpdate in He. destruct (isUpdateEvent e); [discriminate|]. now apply IH.
Qed.

Lemma createLocked_one_write ctx credential id s :
  exists added,
    trace (snd (createLocked env ctx credential id s)) = trace s ++ added /\
    (countUpdates added <= 1)%nat.
Proof.
  unfold createLocked. unfold bind at 1. unfold GetServicePrincipal at 1.
  destruct (getServicePrincipal env (calls s) (ObjectId id))
    as [[servicePrincipal|]|e|e];
    try (exists [EvGet (ObjectId id)]; split; [reflexivity|]; cbn; lia).
  destruct (newCredentialsForCreate servicePrincipal credential) as [creds|];
    [|exists [EvGet (ObjectId id)]; split; [reflexivity|]; cbn; lia].
  unfold bind at 1. unfold UpdateServicePrincipal at 1.
  destruct (updateServicePrincipal env (ObjectId id) creds) as [e|].
  - exists [EvGet (ObjectId id); EvUpdate (ObjectId id) creds]. simpl.
    rewrite <- app_assoc. split; [reflexivity|]. cbn. lia.
  - match goal with |- context [createConfirm env ctx servicePrincipal id ?s1] =>
      destruct (appending_createConfirm env notUpdate ctx servicePrincipal id
                  (fun _ => eq_refl) (fun _ => eq_refl) s1) as (rest & Etrace & Hrest)
    end.
    exists ([EvGet (ObjectId id); EvUpdate (ObjectId id) creds] ++ rest).
    rewrite Etrace. simpl. rewrite <- !app_assoc. split; [reflexivity|].
    pose proof (countUpdates_none rest Hrest) as Hzero.
    unfold countUpdates in *. simpl. lia.
Qed.

Lemma deleteLocked_one_write ctx id s :
  exists added,
    trace (snd (deleteLocked env ctx id s)) = trace s ++ added /\
    (countUpdates added <= 1)%nat.
Proof.
  unfold deleteLocked. unfold bind at 1. unfold GetServicePrincipal at 1.
  destruct (getServicePrincipal env (calls s) (ObjectId id))
    as [[servicePrincipal|]|e|e];
    try (exists [EvGet (ObjectId id)]; split; [reflexivity|]; cbn; lia).
  unfold bind at 1. unfold UpdateServicePrincipal at 1.
  destruct (updateServicePrincipal env (ObjectId id) _) as [e|].
  - eexists [EvGet (ObjectId id); EvUpdate (ObjectId id) _]. simpl.
    rewrite <- app_assoc. split; [reflexivity|]. cbn. lia.
  - match goal with |- context [deleteConfirm env ctx servicePrincipal id ?s1] =>
      destruct (appending_deleteConfirm env notUpdate ctx servicePrincipal id
                  (fun _ => eq_refl) (fun _ => eq_refl) s1) as (rest & Etrace & Hrest)
    end.
    eexists ([EvGet (ObjectId id); EvUpdate (ObjectId id) _] ++ rest).
    rewrite Etrace. simpl. rewrite <- !app_assoc. split; [reflexivity|].
    pose proof (countUpdates_none rest Hrest) as Hzero.
    unfold countUpdates in *. simpl. lia.
Qed.

(** X9. Create and Delete send at most one write to the directory per call,
    whatever the directory answers and however long the poll runs; Read
    sends none. *)
Theorem at_most_one_write_per_operation ctx s :
  (exists added,
     trace (snd (servicePrincipalCertificateResourceCreate env ctx s)) = trace s ++ added /\
     (countUpdates added <= 1)%nat) /\
  (exists added,
     trace (snd (servicePrincipalCertificateResourceDelete env ctx s)) = trace s ++ added /\
     (countUpdates added <= 1)%nat) /\
  (exists added,
     trace (snd (servicePrincipalCertificateResourceRead env ctx s)) = trace s ++ added /\
     countUpdates added = 0%nat).
Proof.
  split; [|split].
  - destruct (KeyCredentialForResource (data s)) as [credential|e] eqn:Hcred.
    + destruct (KeyId credential) as [keyId|] eqn:Hkey.
      * rewrite (Create_locked env ctx s credential keyId Hcred Hkey).
        set (id := NewCredentialID _ _ _).
        destruct (createLocked_one_write ctx credential id
                    (withEvent (EvLock servicePrincipalResourceName (ObjectId id)) s))
          as (added & Etrace & Hcount).
        destruct (createLocked env ctx credential id _) as [[diags|[]] s2].
        simpl in *.
        exists (EvLock servicePrincipalResourceName (ObjectId id) :: added ++
                [EvUnlock servicePrincipalResourceName (ObjectId id)]).
        rewrite Etrace, <- !app_assoc. split; [reflexivity|].
        change (EvLock servicePrincipalResourceName (ObjectId id) :: added ++
                [EvUnlock servicePrincipalResourceName (ObjectId id)])
          with ([EvLock servicePrincipalResourceName (ObjectId id)] ++ added ++
                [EvUnlock servicePrincipalResourceName (ObjectId id)]).
        rewrite !countUpdates_app. cbn. lia.
      * unfold servicePrincipalCertificateResourceCreate, run, bind, getData, return_.
        rewrite Hcred, Hkey. exists []. simpl. rewrite app_nil_r.
        split; [reflexivity|]. cbn. lia.
    + unfold servicePrincipalCertificateResourceCreate, run, bind, getData, return_.
      rewrite Hcred. exists []. simpl. rewrite app_nil_r.
      split; [reflexivity|]. cbn. lia.
  - destruct (CertificateID (Id (data s))) as [id|e] eqn:Hid.
    + rewrite (Delete_locked env ctx s id Hid).
      destruct (deleteLocked_one_write ctx id
                  (withEvent (EvLock servicePrincipalResourceName (ObjectId id)) s))
        as (added & Etrace & Hcount).
      destruct (deleteLocked env ctx id _) as [[diags|[]] s2].
      simpl in *.
      exists (EvLock servicePrincipalResourceName (ObjectId id) :: added ++
              [EvUnlock servicePrincipalResourceName (ObjectId id)]).
      rewrite Etrace, <- !app_assoc. split; [reflexivity|].
      change (EvLock servicePrincipalResourceName (ObjectId id) :: added ++
              [EvUnlock servicePrincipalResourceName (ObjectId id)])
        with ([EvLock servicePrincipalResourceName (ObjectId id)] ++ added ++
              [EvUnlock servicePrincipalResourceName (ObjectId id)]).
      rewrite !countUpdates_app. cbn. lia.
    + unfold servicePrincipalCertificateResourceDelete, run, bind, getData, return_.
      rewrite Hid. exists []. simpl. rewrite app_nil_r.
      split; [reflexivity|]. cbn. lia.
  - destruct (appending_Read env notUpdate ctx (fun _ => eq_refl) s)
      as (added & Etrace & Hnone).
    exists added. split; [exact Etrace|]. now apply countUpdates_none.
Qed.

(** X11. Create and Delete for one principal take the same named lock: both
    lock, and at the end unlock, the resource name of the service principal
    with the object id as the key. *)
Theorem create_and_delete_share_the_lock ctx s1 s2 credential keyId id :
  KeyCredentialForResource (data s1) = inl credential ->
  KeyId credential = Some keyId ->
  CertificateID (Id (data s2)) = inl id ->
  ObjectId id = Get (data s1) "service_principal_id" ->
  exists mid1 mid2,
    trace (snd (servicePrincipalCertificateResourceCreate env ctx s1)) =
      trace s1 ++ EvLock servicePrincipalResourceName (ObjectId id) :: mid1 ++
      [EvUnlock servicePrincipalResourceName (ObjectId id)] /\
    trace (snd (servicePrincipalCertificateResourceDelete env ctx s2)) =
      trace s2 ++ EvLock servicePrincipalResourceName (ObjectId id) :: mid2 ++
      [EvUnlock servicePrincipalResourceName (ObjectId id)] /\
    lockFree mid1 = true /\ lockFree mid2 = true.
Proof.
  intros Hcred Hkey Hid Hsame.
  rewrite (Create_locked env ctx s1 credential keyId Hcred Hkey).
  rewrite (Delete_locked env ctx s2 id Hid).
  cbn [ObjectId]. rewrite <- Hsame.
  set (cid := NewCredentialID _ _ _).
  destruct (appending_createLocked env notLock ctx credential cid
              (fun _ => eq_refl) (fun _ _ => eq_refl) (fun _ => eq_refl)
              (withEvent (EvLock servicePrincipalResourceName (ObjectId id)) s1))
    as (mid1 & E1 & Q1).
  destruct (appending_deleteLocked env notLock ctx id
              (fun _ => eq_refl) (fun _ _ => eq_refl) (fun _ => eq_refl)
              (withEvent (EvLock servicePrincipalResourceName (ObjectId id)) s2))
    as (mid2 & E2 & Q2).
  destruct (createLocked env ctx credential cid _) as [[diags1|[]] t1].
  destruct (deleteLocked env ctx id _) as [[diags2|[]] t2].
  simpl in *. exists mid1, mid2. rewrite E1, E2, <- !app_assoc. simpl. auto.
Qed.

End Writes.

(** ** Read on a credential that is there *)

Section Refresh.

Context `{Collaborators}.
Variable env : Env.

Lemma Get_Set__eq key value d : Get (Set_ key value d) key = value.
Proof. unfold Get, Set_. simpl. now rewrite lookup_insert_eq. Qed.

Lemma Get_Set__ne key other value d :
  key <> other -> Get (Set_ key value d) other = Get d other.
Proof. intros Hne. unfold Get, Set_. simpl. now rewrite lookup_insert_ne. Qed.

Lemma Read_found ctx s id servicePrincipal credential :
  CertificateID (Id (data s)) = inl id ->
  getServicePrincipal env (calls s) (ObjectId id) = GetOk (Some servicePrincipal) ->
  GetKeyCredential (KeyCredentials servicePrincipal) (CredKeyId id) = Some credential ->
  servicePrincipalCertificateResourceRead env ctx s =
  ([], {| data :=
            Set_ "end_date" (GetOrZero (EndDateTime credential))
              (Set_ "start_date" (GetOrZero (StartDateTime credential))
                 (Set_ "type" (GetOrZero (Type_ credential))
                    (Set_ "key_id" (CredKeyId id)
                       (Set_ "service_principal_id" (ObjectId id) (data s)))));
          calls := S (calls s);
          trace := trace s ++ [EvGet (ObjectId id)] |}).
Proof.
  intros Hid Hget Hfound.
  unfold servicePrincipalCertificateResourceRead, run, bind, getData,
    GetServicePrincipal, modify, return_.
  rewrite Hid, Hget, Hfound. reflexivity.
Qed.

(** X12. When Read finds the credential, it returns no diagnostics, keeps the
    stored identifier, and sets five attributes: the object id and the key
    id as the stored identifier spells them, and the type and the two dates
    of the credential found, with the empty string for a value the
    directory left out. Every other attribute keeps its value. *)
Theorem read_refreshes_five_attributes ctx s id servicePrincipal credential :
  CertificateID (Id (data s)) = inl id ->
  getServicePrincipal env (calls s) (ObjectId id) = GetOk (Some servicePrincipal) ->
  GetKeyCredential (KeyCredentials servicePrincipal) (CredKeyId id) = Some credential ->
  fst (servicePrincipalCertificateResourceRead env ctx s) = [] /\
  Id (data (snd (servicePrincipalCertificateResourceRead env ctx s))) = Id (data s) /\
  Get (data (snd (servicePrincipalCertificateResourceRead env ctx s)))
    "service_principal_id" = ObjectId id /\
  Get (data (snd (servicePrincipalCertificateResourceRead env ctx s))) "key_id" =
    CredKeyId id /\
  Get (data (snd (servicePrincipalCertificateResourceRead env ctx s))) "type" =
    GetOrZero (Type_ credential) /\
  Get (data (snd (servicePrincipalCertificateResourceRead env ctx s))) "start_date" =
    GetOrZero (StartDateTime credential) /\
  Get (data (snd (servicePrincipalCertificateResourceRead env ctx s))) "end_date" =
    GetOrZero (EndDateTime credential) /\
  (forall key,
     ~ In key ["service_principal_id"; "key_id"; "type"; "start_date"; "end_date"] ->
     Get (data (snd (servicePrincipalCertificateResourceRead env ctx s))) key =
     Get (data s) key).
Proof.
  intros Hid Hget Hfound.
  rewrite (Read_found ctx s id servicePrincipal credential Hid Hget Hfound).
  cbn [fst snd data].
  split; [reflexivity|]. split; [reflexivity|].
  split. { rewrite !Get_Set__ne by discriminate. apply Get_Set__eq. }
  split. { rewrite !Get_Set__ne by discriminate. apply Get_Set__eq. }
  split. { rewrite !Get_Set__ne by discriminate. apply Get_Set__eq. }
  split. { rewrite !Get_Set__ne by discriminate. apply Get_Set__eq. }
  split. { apply Get_Set__eq. }
  intros key Hother.
  rewrite !Get_Set__ne; [reflexivity|..]; intros <-; apply Hother; simpl; tauto.
Qed.

(** X13. Read is stable: when Read has found the credential and the directory
    gives the same answer again, a second Read returns no diagnostics and
    leaves the resource data exactly as the first Read left them. *)
Theorem read_again_changes_nothing ctx s id servicePrincipal credential :
  CertificateID (Id (data s)) = inl id ->
  getServicePrincipal env (calls s) (ObjectId id) = GetOk (Some servicePrincipal) ->
  getServicePrincipal env (S (calls s)) (ObjectId id) = GetOk (Some servicePrincipal) ->
  GetKeyCredential (KeyCredentials servicePrincipal) (CredKeyId id) = Some credential ->
  fst (servicePrincipalCertificateResourceRead env ctx
         (snd (servicePrincipalCertificateResourceRead env ctx s))) = [] /\
  data (snd (servicePrincipalCertificateResourceRead env ctx
               (snd (servicePrincipalCertificateResourceRead env ctx s)))) =
  data (snd (servicePrincipalCertificateResourceRead env ctx s)).
Proof.
  intros Hid Hget Hagain Hfound.
  rewrite (Read_found ctx s id servicePrincipal credential Hid Hget Hfound).
  cbn [snd].
  match goal with |- context [servicePrincipalCertificateResourceRead env ctx ?s1] =>
    rewrite (Read_found ctx s1 id servicePrincipal credential Hid Hagain Hfound)
  end.
  cbn [fst snd data]. split; [reflexivity|].
  unfold Set_. cbn [Id attrs]. f_equal.
  apply map_eq. intros key. rewrite !lookup_insert.
  repeat case_decide; congruence.
Qed.

End Refresh.

(** ** The resource descriptor *)

Section DescriptorFacts.

Context `{Collaborators}.
Variable env : Env.
Variable possibleValuesForKeyCredentialType : list string.

(** X14. The descriptor has no update operation, and every attribute forces a
    new resource when it changes.  Each attribute is either required or
    optional, never both; only optional ones are computed; a default sits
    only on an optional attribute that is not computed, and passes the
    attribute's own value list; and whenever an attribute names another as
    conflicting, that other one exists and names it back. *)
Theorem descriptor_is_well_formed :
  UpdateContext (servicePrincipalCertificateResource env possibleValuesForKeyCredentialType) =
    None /\
  forall name sch,
    SchemaMap (servicePrincipalCertificateResource env possibleValuesForKeyCredentialType)
      !! name = Some sch ->
    ForceNew sch = true /\
    Required sch = negb (Optional sch) /\
    (Computed sch = true -> Optional sch = true) /\
    (forall value, Default sch = Some value ->
       Optional sch = true /\ Computed sch = false /\
       forall valid ignoreCase, Validate sch = StringInSlice valid ignoreCase ->
         inSlice valid ignoreCase value = true) /\
    (forall other, In other (ConflictsWith sch) ->
       exists sch',
         SchemaMap (servicePrincipalCertificateResource env
                      possibleValuesForKeyCredentialType) !! other = Some sch' /\
         In name (ConflictsWith sch')).
Proof.
  split; [reflexivity|].
  intros name sch Hlook. cbn [SchemaMap servicePrincipalCertificateResource] in *.
  repeat (rewrite lookup_insert in Hlook; case_decide;
          [subst name; inversion Hlook; subst sch; clear Hlook;
           cbn [ForceNew Required Optional Computed Default ConflictsWith Validate];
           (split; [reflexivity|]); (split; [reflexivity|]);
           (split; [intros Hcomputed; first [reflexivity|discriminate Hcomputed]|]);
           (split;
            [intros value Hdefault; try discriminate Hdefault;
             inversion Hdefault; subst value;
             (split; [reflexivity|]); (split; [reflexivity|]);
             intros valid ignoreCase Hvalid; inversion Hvalid; subst; reflexivity
            |intros other Hother; cbn [In] in Hother;
             repeat (destruct Hother as [<-|Hother];
                     [eexists; split; [reflexivity|cbn; tauto]|]);
             destruct Hother])
          |]).
  rewrite lookup_empty in Hlook. discriminate.
Qed.

(** X15. The check run at import and the parse at the head of Read agree: an
    identifier the check rejects makes Read fail with that very error on
    [id], and one the check accepts never makes Read fail on [id]. *)
Theorem import_check_agrees_with_read ctx s :
  match Importer (servicePrincipalCertificateResource env possibleValuesForKeyCredentialType)
          (Id (data s)) with
  | Some err =>
      servicePrincipalCertificateResourceRead env ctx s =
        (ErrorDiagPathF (Some err) "id" "Parsing certificate credential with ID %q"
           [Id (data s)], s)
  | None =>
      forall cause summary args,
        fst (servicePrincipalCertificateResourceRead env ctx s) <>
        ErrorDiagPathF cause "id" summary args
  end.
Proof.
  cbn [Importer servicePrincipalCertificateResource].
  unfold servicePrincipalCertificateResourceRead, run, bind, getData,
    GetServicePrincipal, modify, return_.
  destruct (CertificateID (Id (data s))) as [id|err]; [|reflexivity].
  intros cause summary args.
  destruct (getServicePrincipal env (calls s) (ObjectId id))
    as [[servicePrincipal|]|e|e]; try discriminate.
  destruct (GetKeyCredential _ _); discriminate.
Qed.

End DescriptorFacts.

(** * Properties of the provider helpers *)

Section HelperFacts.

Context `{Host}.

(** X16. With [TF_ACC] set, or [TF_LOG] unset, [logEntry] logs nothing; it adds
    its entry exactly when [TF_LOG] is set and [TF_ACC] is not. *)
Theorem logEntry_is_silent_under_acceptance_tests f v log :
  (logEntry f v log = log ++ [(f, v)] <->
   Getenv "TF_LOG" <> "" /\ Getenv "TF_ACC" = "") /\
  (logEntry f v log = log <->
   Getenv "TF_LOG" = "" \/ Getenv "TF_ACC" <> "").
Proof.
  assert (log ++ [(f, v)] <> log) as Hgrow.
  { intros E. apply (f_equal (@length _)) in E. rewrite List.length_app in E.
    simpl in E. lia. }
  unfold logEntry.
  destruct (String.eqb (Getenv "TF_LOG") "") eqn:Elog;
    [apply String.eqb_eq in Elog|apply String.eqb_neq in Elog];
    (destruct (String.eqb (Getenv "TF_ACC") "") eqn:Eacc;
     [apply String.eqb_eq in Eacc|apply String.eqb_neq in Eacc]); simpl;
    (split; split); try tauto; try congruence; intros; exfalso; intuition congruence.
Qed.

(** X17. [decodeCertificate] returns bytes or an error, never both: the empty
    string gives neither, a decoding failure gives the wrapped error and a
    nil slice, even if the decoder had written bytes before it failed, and
    a success gives exactly what the decoder wrote. *)
Theorem decodeCertificate_returns_bytes_or_error clientCertificate :
  decodeCertificate "" = (None, None) /\
  (forall err, snd (decodeCertificate clientCertificate) = Some err ->
     fst (decodeCertificate clientCertificate) = None /\
     exists cause,
       snd (StdEncoding_Decode clientCertificate) = Some cause /\
       err = Errorf "could not decode client certificate data: %v" [] (Some cause)) /\
  (clientCertificate <> "" ->
   snd (decodeCertificate clientCertificate) = None ->
   snd (StdEncoding_Decode clientCertificate) = None /\
   fst (decodeCertificate clientCertificate) =
     Some (fst (StdEncoding_Decode clientCertificate))).
Proof.
  split; [reflexivity|]. unfold decodeCertificate.
  destruct (String.eqb clientCertificate "") eqn:Eempty; simpl.
  - apply String.eqb_eq in Eempty. split; [discriminate|]. intros Hne. contradiction.
  - destruct (StdEncoding_Decode clientCertificate) as [out [cause|]]; simpl.
    + split; [|discriminate]. intros err E. inversion E; subst. eauto.
    + split; [discriminate|]. auto.
Qed.

(** X18. A configured value is never overridden by a file: on success each of
    the three getters returns the configured value, trimmed for the client
    id and the client secret and verbatim for the OIDC token, and returns
    the trimmed file content only when no value is configured. *)
Theorem configured_values_are_never_overridden d v :
  (getOidcToken d = inl v ->
   v = GetString d "oidc_token" \/
   (GetString d "oidc_token" = "" /\
    exists raw, ReadFile (GetString d "oidc_token_file_path") = inl raw /\
                v = TrimSpace raw)) /\
  (getClientId d = inl v ->
   v = TrimSpace (GetString d "client_id") \/
   (TrimSpace (GetString d "client_id") = "" /\
    exists raw, ReadFile (GetString d "client_id_file_path") = inl raw /\
                v = TrimSpace raw)) /\
  (getClientSecret d = inl v ->
   v = TrimSpace (GetString d "client_secret") \/
   (TrimSpace (GetString d "client_secret") = "" /\
    exists raw, ReadFile (GetString d "client_secret_file_path") = inl raw /\
                v = TrimSpace raw)).
Proof.
  unfold getOidcToken, getClientId, getClientSecret.
  repeat split;
    (match goal with |- context [negb (String.eqb ?path "")] =>
       destruct (String.eqb path "") end; simpl;
     [intros E; inversion E; now left|];
     match goal with |- context [ReadFile ?path] =>
       destruct (ReadFile path) as [raw|err] end; [|discriminate];
     match goal with |- context [negb (String.eqb ?cfg "") && _] =>
       destruct (String.eqb cfg "") eqn:Eempty; simpl;
       [apply String.eqb_eq in Eempty; intros E; inversion E; right; eauto|]
     end;
     match goal with |- context [negb (String.eqb ?cfg ?file)] =>
       destruct (String.eqb cfg file) eqn:Esame; simpl; [|discriminate];
       apply String.eqb_eq in Esame; intros E; inversion E; subst; now left
     end).
Qed.

(** The shape the three getters share. *)
Lemma file_getter_fails (cfg path reading mismatch : string) :
  (exists e,
     (if negb (String.eqb path "") then
        match ReadFile path with
        | inr err => inr (Errorf reading [path] (Some err))
        | inl raw =>
            if negb (String.eqb cfg "") && negb (String.eqb cfg (TrimSpace raw))
            then inr (Errorf mismatch [] None)
            else inl (TrimSpace raw)
        end
      else inl cfg) = inr e) <->
  path <> "" /\
  ((exists err, ReadFile path = inr err) \/
   (exists raw, ReadFile path = inl raw /\ cfg <> "" /\ cfg <> TrimSpace raw)).
Proof.
  destruct (String.eqb path "") eqn:Epath; simpl;
    [apply String.eqb_eq in Epath|apply String.eqb_neq in Epath].
  - split; [intros [e E]; discriminate E|intros [Hpath _]; contradiction].
  - destruct (ReadFile path) as [raw|err].
    + destruct (String.eqb cfg "") eqn:Eempty; simpl;
        [apply String.eqb_eq in Eempty|apply String.eqb_neq in Eempty].
      * split; [intros [e E]; discriminate E|].
        intros [_ [[err E]|(raw' & E & Hcfg & _)]]; [discriminate E|contradiction].
      * destruct (String.eqb cfg (TrimSpace raw)) eqn:Esame; simpl;
          [apply String.eqb_eq in Esame|apply String.eqb_neq in Esame].
        -- split; [intros [e E]; discriminate E|].
           intros [_ [[err E]|(raw' & E & _ & Hdiff)]]; [discriminate E|].
           inversion E; subst raw'. contradiction.
        -- split; [|eauto]. intros _. split; [exact Epath|]. right. eauto.
    + split; [|eauto]. intros _. split; [exact Epath|]. left. eauto.
Qed.

(** X19. The three getters fail exactly when a file path is set and either the
    file cannot be read, or a value is configured that differs from the
    trimmed file content. *)
Theorem file_getters_fail_exactly_on_unreadable_or_mismatch d :
  ((exists e, getOidcToken d = inr e) <->
   GetString d "oidc_token_file_path" <> "" /\
   ((exists err, ReadFile (GetString d "oidc_token_file_path") = inr err) \/
    (exists raw, ReadFile (GetString d "oidc_token_file_path") = inl raw /\
       GetString d "oidc_token" <> "" /\
       GetString d "oidc_token" <> TrimSpace raw))) /\
  ((exists e, getClientId d = inr e) <->
   GetString d "client_id_file_path" <> "" /\
   ((exists err, ReadFile (GetString d "client_id_file_path") = inr err) \/
    (exists raw, ReadFile (GetString d "client_id_file_path") = inl raw /\
       TrimSpace (GetString d "client_id") <> "" /\
       TrimSpace (GetString d "client_id") <> TrimSpace raw))) /\
  ((exists e, getClientSecret d = inr e) <->
   GetString d "client_secret_file_path" <> "" /\
   ((exists err, ReadFile (GetString d "client_secret_file_path") = inr err) \/
    (exists raw, ReadFile (GetString d "client_secret_file_path") = inl raw /\
       TrimSpace (GetString d "client_secret") <> "" /\
       TrimSpace (GetString d "client_secret") <> TrimSpace raw))).
Proof.
  split; [|split].
  - exact (file_getter_fails (GetString d "oidc_token")
             (GetString d "oidc_token_file_path") _ _).
  - exact (file_getter_fails (TrimSpace (GetString d "client_id"))
             (GetString d "client_id_file_path") _ _).
  - exact (file_getter_fails (TrimSpace (GetString d "client_secret"))
             (GetString d "client_secret_file_path") _ _).
Qed.

(** X20. The OIDC token is compared with the file as configured, the client id
    after trimming.  So a configured value that equals the file content up
    to surrounding white space, but has some itself, is a mismatch for the
    OIDC token and is accepted for the client id. *)
Theorem oidc_token_is_compared_untrimmed d value path raw :
  GetString d "oidc_token" = value ->
  GetString d "client_id" = value ->
  GetString d "oidc_token_file_path" = path ->
  GetString d "client_id_file_path" = path ->
  path <> "" ->
  ReadFile path = inl raw ->
  value <> "" ->
  TrimSpace value <> "" ->
  TrimSpace value = TrimSpace raw ->
  TrimSpace value <> value ->
  getOidcToken d =
    inr (Errorf "mismatch between supplied OIDC token and supplied OIDC token file contents - please either remove one or ensure they match" [] None) /\
  getClientId d = inl (TrimSpace raw).
Proof.
  intros Htoken Hid Hpath1 Hpath2 Hpath Hread Hvalue Htrimmed Hsame Hspace.
  unfold getOidcToken, getClientId.
  rewrite Htoken, Hid, Hpath1, Hpath2, Hread.
  apply String.eqb_neq in Hpath. rewrite Hpath. simpl.
  rewrite <- Hsame.
  apply String.eqb_neq in Hvalue. rewrite Hvalue.
  assert (String.eqb value (TrimSpace value) = false) as Hne
    by (apply String.eqb_neq; congruence).
  rewrite Hne. simpl.
  apply String.eqb_neq in Htrimmed. rewrite Htrimmed, String.eqb_refl. simpl.
  split; reflexivity.
Qed.


End HelperFacts.

(** * The existence check *)

Section ExistsFacts.

Context `{JobCollaborators}.

(** X22. [Exists] returns a result or an error, never both and never neither.
    The result is false exactly when the identifier parses and the client
    reports not found; it is true exactly when the identifier parses and the
    fetch succeeds.  The error of any other failed fetch names the job but
    does not carry the client's error. *)
Theorem Exists_outcomes stateID :
  (fst (Exists stateID) = None <-> snd (Exists stateID) <> None) /\
  (fst (Exists stateID) = Some false <->
   exists resourceId err,
     SynchronizationJobID stateID = inl resourceId /\
     GetSynchronizationJob (ServicePrincipalId resourceId) (JobId resourceId) =
       JobNotFound err) /\
  (fst (Exists stateID) = Some true <->
   exists resourceId,
     SynchronizationJobID stateID = inl resourceId /\
     GetSynchronizationJob (ServicePrincipalId resourceId) (JobId resourceId) = JobOk) /\
  (forall resourceId err,
     SynchronizationJobID stateID = inl resourceId ->
     GetSynchronizationJob (ServicePrincipalId resourceId) (JobId resourceId) =
       JobFailed err ->
     snd (Exists stateID) =
       Some (Errorf "retrieving %s"
               [JobID_String (ServicePrincipalId resourceId) (JobId resourceId)] None)).
Proof.
  unfold Exists.
  destruct (SynchronizationJobID stateID) as [resourceId|perr]; simpl.
  - destruct (GetSynchronizationJob _ _) as [|err|err] eqn:Hget; simpl;
      repeat split; try discriminate; try congruence; eauto;
      try (intros (r & e & E & Hx); inversion E; subst; congruence);
      try (intros (r & E & Hx); inversion E; subst; congruence);
      try (intros r e E Hx; inversion E; subst; congruence).
  - repeat split; try discriminate; try congruence;
      try (intros (r & e & E & _); discriminate E);
      try (intros (r & E & _); discriminate E).
Qed.

End ExistsFacts.

(** * Concrete runs of the further properties *)

Section MoreRuns.

#[local] Existing Instance sampleCollaborators.

Lemma delete_succeeds_only_when_absent_witness :
  fst (servicePrincipalCertificateResourceDelete (sampleEnv [cert "a1"] [cert "a1"] 7)
         sampleCtx (startState (storedData "p1/certificate/k1"))) = [] /\
  exists id servicePrincipal,
    CertificateID (Id (storedData "p1/certificate/k1")) = inl id /\
    getServicePrincipal (sampleEnv [cert "a1"] [cert "a1"] 7) 0 (ObjectId id) =
      GetOk (Some servicePrincipal) /\
    (forall cred, In cred (credentialsOf servicePrincipal) ->
       EqualFold (GetOrZero (KeyId cred)) (CredKeyId id) = false) /\
    newCredentialsForDelete servicePrincipal (CredKeyId id) =
      credentialsOf servicePrincipal /\
    updateServicePrincipal (sampleEnv [cert "a1"] [cert "a1"] 7) (ObjectId id)
      (credentialsOf servicePrincipal) = None.
Proof.
  split; [reflexivity|].
  exact (delete_succeeds_only_when_absent (sampleEnv [cert "a1"] [cert "a1"] 7) sampleCtx
           (startState (storedData "p1/certificate/k1")) eq_refl).
Defined.

Lemma malformed_identifier_stops_read_and_delete_witness :
  CertificateID (Id (storedData "p1-certificate-k1")) =
    inr (errors_New "invalid identifier") /\
  servicePrincipalCertificateResourceRead goneEnv sampleCtx
    (startState (storedData "p1-certificate-k1")) =
    (ErrorDiagPathF (Some (errors_New "invalid identifier")) "id"
       "Parsing certificate credential with ID %q" ["p1-certificate-k1"],
     startState (storedData "p1-certificate-k1")) /\
  servicePrincipalCertificateResourceDelete goneEnv sampleCtx
    (startState (storedData "p1-certificate-k1")) =
    (ErrorDiagPathF (Some (errors_New "invalid identifier")) "id"
       "Parsing certificate credential with ID %q" ["p1-certificate-k1"],
     startState (storedData "p1-certificate-k1")).
Proof.
  split; [reflexivity|].
  exact (malformed_identifier_stops_read_and_delete goneEnv sampleCtx
           (startState (storedData "p1-certificate-k1"))
           (errors_New "invalid identifier") eq_refl).
Defined.

Lemma create_without_credential_touches_nothing_witness :
  servicePrincipalCertificateResourceCreate goneEnv sampleCtx
    (startState (configData "p1" "k1" "")) =
  (ErrorDiagPathF (Some (CredentialError "value" "value is required")) "value"
     "Generating certificate credentials for service principal with object ID %q" ["p1"],
   startState (configData "p1" "k1" "")).
Proof.
  refine (create_without_credential_touches_nothing goneEnv sampleCtx
            (startState (configData "p1" "k1" "")) _).
  intros credential E. vm_compute in E. discriminate E.
Defined.

Lemma create_principal_not_found_witness :
  getServicePrincipal goneEnv 0 "p1" = GetNotFound (ClientError "404 Not Found") /\
  servicePrincipalCertificateResourceCreate goneEnv sampleCtx
    (startState (configData "p1" "k1" "pem")) =
  (ErrorDiagPathF None "service_principal_id" "%s was not found" ["p1"],
   {| data := configData "p1" "k1" "pem";
      calls := 1;
      trace := [EvLock "azuread_service_principal" "p1";
                EvGet "p1";
                EvUnlock "azuread_service_principal" "p1"] |}).
Proof.
  split; [reflexivity|].
  exact (create_principal_not_found goneEnv sampleCtx
           (startState (configData "p1" "k1" "pem"))
           {| KeyId := Some "k1"; Type_ := Some ""; StartDateTime := None;
              EndDateTime := None; Key := Some "pem" |}
           "k1" (ClientError "404 Not Found") eq_refl eq_refl eq_refl).
Defined.

Lemma create_rejected_write_ends_the_operation_witness :
  updateServicePrincipal (rejectingEnv [cert "a1"]) "p1"
    [cert "a1";
     {| KeyId := Some "k1"; Type_ := Some ""; StartDateTime := None;
        EndDateTime := None; Key := Some "pem" |}] = Some (ClientError "403 Forbidden") /\
  servicePrincipalCertificateResourceCreate (rejectingEnv [cert "a1"]) sampleCtx
    (startState (configData "p1" "k1" "pem")) =
  (ErrorDiagF (Some (ClientError "403 Forbidden")) "Adding certificate for %s" ["p1"],
   {| data := configData "p1" "k1" "pem";
      calls := 1;
      trace := [EvLock "azuread_service_principal" "p1";
                EvGet "p1";
                EvUpdate "p1"
                  [cert "a1";
                   {| KeyId := Some "k1"; Type_ := Some ""; StartDateTime := None;
                      EndDateTime := None; Key := Some "pem" |}];
                EvUnlock "azuread_service_principal" "p1"] |}).
Proof.
  split; [reflexivity|].
  exact (create_rejected_write_ends_the_operation (rejectingEnv [cert "a1"]) sampleCtx
           (startState (configData "p1" "k1" "pem"))
           {| KeyId := Some "k1"; Type_ := Some ""; StartDateTime := None;
              EndDateTime := None; Key := Some "pem" |}
           "k1" {| KeyCredentials := Some [cert "a1"] |}
           [cert "a1";
            {| KeyId := Some "k1"; Type_ := Some ""; StartDateTime := None;
               EndDateTime := None; Key := Some "pem" |}]
           (ClientError "403 Forbidden") eq_refl eq_refl eq_refl eq_refl eq_refl).
Defined.

Lemma delete_rejected_write_ends_the_operation_witness :
  updateServicePrincipal (rejectingEnv [cert "a1"; cert "K1"]) "p1" [cert "a1"] =
    Some (ClientError "403 Forbidden") /\
  servicePrincipalCertificateResourceDelete (rejectingEnv [cert "a1"; cert "K1"]) sampleCtx
    (startState (storedData "p1/certificate/k1")) =
  (ErrorDiagF (Some (ClientError "403 Forbidden"))
     "Removing certificate credential %q from %s" ["k1"; "p1"],
   {| data := storedData "p1/certificate/k1";
      calls := 1;
      trace := [EvLock "azuread_service_principal" "p1";
                EvGet "p1";
                EvUpdate "p1" [cert "a1"];
                EvUnlock "azuread_service_principal" "p1"] |}).
Proof.
  split; [reflexivity|].
  exact (delete_rejected_write_ends_the_operation (rejectingEnv [cert "a1"; cert "K1"])
           sampleCtx (startState (storedData "p1/certificate/k1"))
           (NewCredentialID "p1" "certificate" "k1")
           {| KeyCredentials := Some [cert "a1"; cert "K1"] |}
           (ClientError "403 Forbidden") eq_refl eq_refl eq_refl).
Defined.

Lemma delete_of_absent_key_writes_the_set_back_witness :
  exists rest,
    trace (snd (servicePrincipalCertificateResourceDelete (sampleEnv [cert "a1"] [] 3)
                  sampleCtx (startState (storedData "p1/certificate/k1")))) =
    [] ++ [EvLock "azuread_service_principal" "p1"; EvGet "p1";
           EvUpdate "p1" [cert "a1"]] ++ rest.
Proof.
  refine (delete_of_absent_key_writes_the_set_back (sampleEnv [cert "a1"] [] 3) sampleCtx
            (startState (storedData "p1/certificate/k1"))
            (NewCredentialID "p1" "certificate" "k1")
            {| KeyCredentials := Some [cert "a1"] |} eq_refl eq_refl _).
  intros cred [<-|[]]. reflexivity.
Defined.

Lemma create_and_delete_share_the_lock_witness :
  exists mid1 mid2,
    trace (snd (servicePrincipalCertificateResourceCreate (sampleEnv [] [] 2) sampleCtx
                  (startState (configData "p1" "k1" "pem")))) =
      [] ++ EvLock "azuread_service_principal" "p1" :: mid1 ++
      [EvUnlock "azuread_service_principal" "p1"] /\
    trace (snd (servicePrincipalCertificateResourceDelete (sampleEnv [] [] 2) sampleCtx
                  (startState (storedData "p1/certificate/k9")))) =
      [] ++ EvLock "azuread_service_principal" "p1" :: mid2 ++
      [EvUnlock "azuread_service_principal" "p1"] /\
    lockFree mid1 = true /\ lockFree mid2 = true.
Proof.
  exact (create_and_delete_share_the_lock (sampleEnv [] [] 2) sampleCtx
           (startState (configData "p1" "k1" "pem"))
           (startState (storedData "p1/certificate/k9"))
           {| KeyId := Some "k1"; Type_ := Some ""; StartDateTime := None;
              EndDateTime := None; Key := Some "pem" |}
           "k1" (NewCredentialID "p1" "certificate" "k9") eq_refl eq_refl eq_refl eq_refl).
Defined.

Lemma read_refreshes_five_attributes_witness :
  GetKeyCredential (Some [cert "a1"; cert "K1"]) "k1" = Some (cert "K1") /\
  Get (data (snd (servicePrincipalCertificateResourceRead
                    (sampleEnv [cert "a1"; cert "K1"] [] 3) sampleCtx
                    (startState (storedData "p1/certificate/k1"))))) "key_id" = "k1" /\
  Get (data (snd (servicePrincipalCertificateResourceRead
                    (sampleEnv [cert "a1"; cert "K1"] [] 3) sampleCtx
                    (startState (storedData "p1/certificate/k1"))))) "type" =
    "AsymmetricX509Cert" /\
  Get (data (snd (servicePrincipalCertificateResourceRead
                    (sampleEnv [cert "a1"; cert "K1"] [] 3) sampleCtx
                    (startState (storedData "p1/certificate/k1"))))) "end_date" = "".
Proof.
  split; [reflexivity|].
  destruct (read_refreshes_five_attributes (H := sampleCollaborators)
              (sampleEnv [cert "a1"; cert "K1"] [] 3)
              sampleCtx (startState (storedData "p1/certificate/k1"))
              (NewCredentialID "p1" "certificate" "k1")
              {| KeyCredentials := Some [cert "a1"; cert "K1"] |} (cert "K1")
              eq_refl eq_refl eq_refl)
    as (_ & _ & _ & Hkey & Htype & _ & Hend & _).
  exact (conj Hkey (conj Htype Hend)).
Defined.

Lemma read_again_changes_nothing_witness :
  fst (servicePrincipalCertificateResourceRead
         (sampleEnv [cert "K1"] [cert "K1"] 3) sampleCtx
         (snd (servicePrincipalCertificateResourceRead
                 (sampleEnv [cert "K1"] [cert "K1"] 3) sampleCtx
                 (startState (storedData "p1/certificate/k1"))))) = [] /\
  data (snd (servicePrincipalCertificateResourceRead
               (sampleEnv [cert "K1"] [cert "K1"] 3) sampleCtx
               (snd (servicePrincipalCertificateResourceRead
                       (sampleEnv [cert "K1"] [cert "K1"] 3) sampleCtx
                       (startState (storedData "p1/certificate/k1")))))) =
  data (snd (servicePrincipalCertificateResourceRead
               (sampleEnv [cert "K1"] [cert "K1"] 3) sampleCtx
               (startState (storedData "p1/certificate/k1")))).
Proof.
  exact (read_again_changes_nothing (sampleEnv [cert "K1"] [cert "K1"] 3) sampleCtx
           (startState (storedData "p1/certificate/k1"))
           (NewCredentialID "p1" "certificate" "k1")
           {| KeyCredentials := Some [cert "K1"] |} (cert "K1")
           eq_refl eq_refl eq_refl eq_refl).
Defined.

Lemma descriptor_is_well_formed_witness :
  exists sch',
    SchemaMap (servicePrincipalCertificateResource goneEnv ["AsymmetricX509Cert"; "Symmetric"])
      !! "end_date_relative" = Some sch' /\
    In "end_date" (ConflictsWith sch').
Proof.
  destruct (proj2 (descriptor_is_well_formed (H := sampleCollaborators) goneEnv
                     ["AsymmetricX509Cert"; "Symmetric"])
              "end_date"
              {| SchemaType := TypeString; Required := false; Optional := true;
                 Computed := true; ForceNew := true; Sensitive := false;
                 Default := None; ConflictsWith := ["end_date_relative"];
                 Validate := IsRFC3339Time |}
              eq_refl)
    as (_ & _ & _ & _ & Hconflicts).
  apply Hconflicts. simpl. left. reflexivity.
Defined.

End MoreRuns.

Section HelperRuns.

Lemma logEntry_is_silent_under_acceptance_tests_witness :
  @logEntry (sampleHost (fun name => if String.eqb name "TF_LOG" then "DEBUG" else "1"))
    "provider: %s" ["configured"] [] = [].
Proof.
  apply (proj2 (logEntry_is_silent_under_acceptance_tests
                  (H := sampleHost (fun name => if String.eqb name "TF_LOG" then "DEBUG" else "1"))
                  "provider: %s" ["configured"] [])).
  right. discriminate.
Defined.

Lemma decodeCertificate_returns_bytes_or_error_witness :
  @decodeCertificate (sampleHost noEnvironment) "aGk=" = (Some "hi", None) /\
  fst (@decodeCertificate (sampleHost noEnvironment) "aGk") = None.
Proof.
  destruct (decodeCertificate_returns_bytes_or_error (H := sampleHost noEnvironment) "aGk=")
    as (_ & _ & Hok).
  destruct (decodeCertificate_returns_bytes_or_error (H := sampleHost noEnvironment) "aGk")
    as (_ & Hfail & _).
  split.
  - destruct (Hok ltac:(discriminate) eq_refl) as [_ Hbytes].
    apply injective_projections; [exact Hbytes|reflexivity].
  - exact (proj1 (Hfail _ eq_refl)).
Defined.

Lemma configured_values_are_never_overridden_witness :
  @getClientId (sampleHost noEnvironment)
    (providerData [("client_id", " app-1 "); ("client_id_file_path", "/run/id")] false) =
    inl "app-1" /\
  ("app-1" = @TrimSpace (sampleHost noEnvironment) " app-1 " \/
   (@TrimSpace (sampleHost noEnvironment) " app-1 " = "" /\
    exists raw, @ReadFile (sampleHost noEnvironment) "/run/id" = inl raw /\
                "app-1" = @TrimSpace (sampleHost noEnvironment) raw)).
Proof.
  split; [reflexivity|].
  exact (proj1 (proj2 (configured_values_are_never_overridden
                         (H := sampleHost noEnvironment)
                         (providerData [("client_id", " app-1 ");
                                        ("client_id_file_path", "/run/id")] false)
                         "app-1")) eq_refl).
Defined.

Lemma file_getters_fail_exactly_on_unreadable_or_mismatch_witness :
  exists e,
    @getClientSecret (sampleHost noEnvironment)
      (providerData [("client_secret", "other"); ("client_secret_file_path", "/run/secret")]
         false) = inr e.
Proof.
  apply (proj2 (file_getters_fail_exactly_on_unreadable_or_mismatch
                  (H := sampleHost noEnvironment)
                  (providerData [("client_secret", "other");
                                 ("client_secret_file_path", "/run/secret")] false))).
  split; [discriminate|]. right. eexists. split; [reflexivity|].
  split; discriminate.
Defined.

Lemma oidc_token_is_compared_untrimmed_witness :
  @getOidcToken (sampleHost noEnvironment)
    (providerData [("oidc_token", " app-1"); ("client_id", " app-1");
                   ("oidc_token_file_path", "/run/id");
                   ("client_id_file_path", "/run/id")] false) =
    inr (Errorf "mismatch between supplied OIDC token and supplied OIDC token file contents - please either remove one or ensure they match" [] None) /\
  @getClientId (sampleHost noEnvironment)
    (providerData [("oidc_token", " app-1"); ("client_id", " app-1");
                   ("oidc_token_file_path", "/run/id");
                   ("client_id_file_path", "/run/id")] false) = inl "app-1".
Proof.
  refine (oidc_token_is_compared_untrimmed (H := sampleHost noEnvironment)
            (providerData [("oidc_token", " app-1"); ("client_id", " app-1");
                           ("oidc_token_file_path", "/run/id");
                           ("client_id_file_path", "/run/id")] false)
            " app-1" "/run/id" " app-1
" eq_refl eq_refl eq_refl eq_refl _ eq_refl _ _ eq_refl _); discriminate.
Defined.


Lemma Exists_outcomes_witness :
  fst (@Exists sampleJobs "p1/job/j2") = Some false /\
  snd (@Exists sampleJobs "p1/job/j3") = Some (Errorf "retrieving %s" ["p1/j3"] None).
Proof.
  split.
  - apply (proj1 (proj2 (Exists_outcomes (H := sampleJobs) "p1/job/j2"))).
    exists (mkSynchronizationJobId "p1" "j2"), (ClientError "404 Not Found").
    split; reflexivity.
  - exact (proj2 (proj2 (proj2 (Exists_outcomes (H := sampleJobs) "p1/job/j3")))
             (mkSynchronizationJobId "p1" "j3") (ClientError "500") eq_refl eq_refl).
Defined.

End HelperRuns.
